(** * Used-vehicle dashboard: the data queries of [app.py]

    [app.py] is a Streamlit script: it loads [vehicles.csv] once with pandas
    and, depending on the page chosen in the sidebar, computes one query over
    the loaded frame and hands the result to a chart or map widget.  This file
    embeds the loader and the query of each page and proves their contracts.

    Modelling conventions.
    - A row is a [Listing] record with one optional field per column the
      script reads; [None] is pandas' NaN.  A [DataFrame] carries the list of
      column labels next to its rows, because [df['c']] and
      [dropna(subset=...)] raise [KeyError] on a label that is absent.
    - Python exceptions are values of [Py.exn]; code that can raise lives in
      the [Py.result] monad.
    - Text is a [string] of bytes (UTF-8); comparing bytes lexicographically
      orders Python strings as [str.__lt__] does (by code point).
    - A cell of the model or cylinders column is a [scalar]: a text, or a
      number when [read_csv] found the column to hold integers only.
      Manufacturer, fuel, drive, type and transmission are text.
    - price, lat and long are float64 values ([float], IEEE 754 binary64 with
      its rounding); year is an integer (an int64 column), converted to
      float64 where pandas does so.
    - What Python and numpy compute outside of this script is a [Library]:
      [str.lower], the regular expressions of [re], and the float64 mean of a
      list of values, whose summation order is numpy's own; of the mean the
      development assumes that it is a float64 sum of the values divided by
      their number.  The contracts hold for every library; the examples run
      on [Sample.library].
    - pandas functions are modelled by what the script relies on:
      [Series.mode] returns the most frequent values in ascending order,
      [groupby] iterates its keys in ascending order, [value_counts] lists the
      distinct values by descending count.  [value_counts] and [nlargest]
      sort with an insertion sort, so values of equal count keep the order in
      which they were first seen. *)

From Stdlib Require Import PrimFloat.
From Stdlib Require FloatOps SpecFloat DecimalString.
From Stdlib Require Import List Bool Arith ZArith String Ascii.
From Stdlib Require Import Lia Permutation Sorted OrdersEx RelationClasses.
Import ListNotations.

Local Open Scope string_scope.
Local Open Scope list_scope.

(** ** Python: exceptions and the result of a computation that may raise *)

Module Py.

Inductive exn : Type :=
| KeyError (key : string)               (* [df[key]] on an absent label *)
| KeyErrorSubset (missing : list string) (* [dropna(subset=...)] *)
| ReadError (msg : string)              (* whatever [pd.read_csv] raised *)
| ValueError (msg : string)             (* a NaN in a mask, a label plotly
                                           does not find *)
| AttributeError (msg : string)         (* [.str] on a column without text *)
| ReError (msg : string)                (* [re.error]: a pattern that does
                                           not compile *)
| Unmodelled (what : string).
(* [Unmodelled] is no Python exception.  No page produces it: it is the
   answer of [Sample.library] to a pattern outside the patterns it knows. *)

Inductive result (A : Type) : Type :=
| Ok (a : A)
| Raise (e : exn).
Arguments Ok {A} a.
Arguments Raise {A} e.

Definition bind {A B : Type} (c : result A) (k : A -> result B) : result B :=
  match c with
  | Ok a => k a
  | Raise e => Raise e
  end.

(** [repr] of a list of strings, as in [str(KeyError(['price']))]. *)
Definition quote (s : string) : string := "'" ++ s ++ "'".

Definition repr_list (l : list string) : string :=
  "[" ++ String.concat ", " (map quote l) ++ "]".

(** [str(e)], the text interpolated by [f"... {e}"]. *)
Definition str (e : exn) : string :=
  match e with
  | KeyError key => quote key
  | KeyErrorSubset missing => repr_list missing
  | ReadError msg => msg
  | ValueError msg => msg
  | AttributeError msg => msg
  | ReError msg => msg
  | Unmodelled what => what
  end.

End Py.

Import Py.

Notation "x <- c ;; k" := (bind c (fun x => k))
  (at level 61, c at next level, right associativity).

(** ** float64 *)

Module Floats.

(** An integer as float64: rounded to the nearest representable value, ties
    to even. *)
Definition float_of_Z (z : Z) : float :=
  FloatOps.SF2Prim (SpecFloat.binary_normalize FloatOps.prec FloatOps.emax z 0 false).

(** Python's [int(x)] on a finite float: truncation toward zero.  The
    script applies it to the median of the years, which is finite. *)
Definition int (f : float) : Z :=
  match FloatOps.Prim2SF f with
  | SpecFloat.S754_finite s m e =>
      let a := (if (0 <=? e)%Z then Z.pos m * 2 ^ e
                else Z.pos m / 2 ^ (- e))%Z in
      if s then (- a)%Z else a
  | _ => 0%Z
  end.

(** [s] is a float64 sum of the values [l]: they are added up two by two,
    each addition rounding, in some order and some grouping; a zero may be
    added on the way (the zero a reduction starts from). *)
Inductive float_sum : list float -> float -> Prop :=
| sum_one (x : float) : float_sum [x] x
| sum_add (l1 l2 : list float) (s1 s2 : float) :
    float_sum l1 s1 -> float_sum l2 s2 -> float_sum (l1 ++ l2) (s1 + s2)%float
| sum_zero_l (l : list float) (s : float) :
    float_sum l s -> float_sum l (0 + s)%float
| sum_zero_r (l : list float) (s : float) :
    float_sum l s -> float_sum l (s + 0)%float
| sum_perm (l l' : list float) (s : float) :
    Permutation l l' -> float_sum l s -> float_sum l' s.

(** [m] is an arithmetic mean of [l] in float64: a float64 sum of the
    values divided by their number. *)
Definition is_mean (l : list float) (m : float) : Prop :=
  exists s, float_sum l s
            /\ m = (s / float_of_Z (Z.of_nat (List.length l)))%float.

End Floats.

Import Floats.

(** ** What the script takes from Python and numpy *)

Module Lib.

(** [lower] is [str.lower].  [re_compile pat] is [re.compile(pat)], which
    raises [re.error] on a pattern that is not well formed, and
    [re_search r s] tells whether [r.search(s)] finds a match.  [nanmean l]
    is the float64 mean numpy computes of the values [l], none of them NaN:
    their sum, added up in numpy's order, divided by their number. *)
Class Library : Type := {
  lower : string -> string;
  lower_empty : lower "" = "";
  regex : Type;
  re_compile : string -> result regex;
  re_search : regex -> string -> bool;
  nanmean : list float -> float;
  nanmean_mean : forall l, l <> [] -> is_mean l (nanmean l)
}.

End Lib.

Import Lib.

(** ** Sorting

    One insertion sort, used for cells ([Series.mode], [groupby]), for
    integers ([median]) and for counted values ([value_counts]). *)

Section Sorting.
Context {A : Type} (leb : A -> A -> bool).

Fixpoint insert (x : A) (l : list A) : list A :=
  match l with
  | [] => [x]
  | y :: l' => if leb x y then x :: l else y :: insert x l'
  end.

Fixpoint sort (l : list A) : list A :=
  match l with
  | [] => []
  | x :: l' => insert x (sort l')
  end.
End Sorting.

Definition str_leb (a b : string) : bool :=
  match String_as_OT.compare a b with
  | Gt => false
  | _ => true
  end.

Definition str_le (a b : string) : Prop := String_as_OT.compare a b <> Gt.

(** ** Cells

    A column of categories holds text, or integers when every value of the
    file parsed as one.  pandas hashes, compares and sorts the cells of a
    column; [Cell] is what it needs of them. *)

Module Cells.

Inductive scalar : Type :=
| Str (s : string)   (* a text *)
| Num (z : Z).       (* a whole number: a cell of a column read as int64, or
                        one met in a column that also holds text *)

Definition scalar_eq_dec (x y : scalar) : {x = y} + {x <> y}.
Proof.
  decide equality; [apply string_dec | apply Z.eq_dec].
Defined.

(** The order in which pandas sorts group keys: numbers before text, numbers
    by value, text by code point. *)
Definition scalar_leb (a b : scalar) : bool :=
  match a, b with
  | Num x, Num y => (x <=? y)%Z
  | Num _, Str _ => true
  | Str _, Num _ => false
  | Str x, Str y => str_leb x y
  end.

Definition is_text (c : scalar) : bool :=
  match c with
  | Str _ => true
  | Num _ => false
  end.

(** numpy sorts a list of texts or a list of numbers; on a list that mixes
    both it raises [TypeError]. *)
Definition same_kind (l : list scalar) : bool :=
  forallb is_text l || forallb (fun c => negb (is_text c)) l.

Class Cell (A : Type) : Type := {
  cell_eq_dec : forall x y : A, {x = y} + {x <> y};
  cell_leb : A -> A -> bool;
  cell_sortable : list A -> bool;
  cell_na : A   (* the Python string 'N/A' *)
}.

#[global] Instance Cell_string : Cell string := {
  cell_eq_dec := string_dec;
  cell_leb := str_leb;
  cell_sortable := fun _ => true;
  cell_na := "N/A"
}.

#[global] Instance Cell_scalar : Cell scalar := {
  cell_eq_dec := scalar_eq_dec;
  cell_leb := scalar_leb;
  cell_sortable := same_kind;
  cell_na := Str "N/A"
}.

Definition cell_eqb {A : Type} `{Cell A} (x y : A) : bool :=
  if cell_eq_dec x y then true else false.

Definition cell_le {A : Type} `{Cell A} (x y : A) : Prop := cell_leb x y = true.

(** What sorting relies on: the order is total and transitive, and a list
    drawn from a list that can be sorted can be sorted. *)
Class CellOrder (A : Type) {C : Cell A} : Prop := {
  cell_leb_total : forall a b : A, cell_leb a b = true \/ cell_leb b a = true;
  cell_leb_trans : forall a b c : A,
    cell_leb a b = true -> cell_leb b c = true -> cell_leb a c = true;
  cell_sortable_incl : forall l l' : list A,
    incl l l' -> cell_sortable l' = true -> cell_sortable l = true
}.

End Cells.

Import Cells.

(** ** pandas: the part of the library the script calls *)

Module Pandas.

(** *** Rows and frames *)

(** One listing; [None] is a missing cell (NaN).  A float cell holds a
    float64 other than NaN.  The year is a whole number within the range of
    int64, so that the median of a column of years is a finite float64. *)
Record Listing : Type := mkListing {
  manufacturer : option string;
  model : option scalar;
  year : option Z;
  price : option float;
  lat : option float;
  long : option float;
  cylinders : option scalar;
  fuel : option string;
  drive : option string;
  type : option string;
  transmission : option string
}.

Record DataFrame : Type := mkDataFrame {
  columns : list string;
  rows : list Listing
}.

(** [pd.DataFrame()]: no column, no row. *)
Definition DataFrame_empty : DataFrame := {| columns := []; rows := [] |}.

Definition Series (A : Type) : Type := list (option A).

Definition isnull {A : Type} (v : option A) : bool :=
  match v with
  | None => true
  | Some _ => false
  end.

(** Is the cell of row [r] under label [c] null?  Labels the script never
    reads have no field in [Listing]; their cells are taken to be filled. *)
Definition cell_isnull (c : string) (r : Listing) : bool :=
  if c =? "manufacturer" then isnull (manufacturer r)
  else if c =? "model" then isnull (model r)
  else if c =? "year" then isnull (year r)
  else if c =? "price" then isnull (price r)
  else if c =? "lat" then isnull (lat r)
  else if c =? "long" then isnull (long r)
  else if c =? "cylinders" then isnull (cylinders r)
  else if c =? "fuel" then isnull (fuel r)
  else if c =? "drive" then isnull (drive r)
  else if c =? "type" then isnull (type r)
  else if c =? "transmission" then isnull (transmission r)
  else false.

Definition has_column (df : DataFrame) (c : string) : bool :=
  existsb (String.eqb c) (columns df).

(** [set(cs).issubset(df.columns)] *)
Definition issubset (cs : list string) (df : DataFrame) : bool :=
  forallb (has_column df) cs.

(** [len(df)] *)
Definition len (df : DataFrame) : nat := List.length (rows df).

(** [df.empty]: some axis has length zero. *)
Definition empty (df : DataFrame) : bool :=
  (List.length (columns df) =? 0)%nat || (List.length (rows df) =? 0)%nat.

(** [df[c]]; [get] is the field of [Listing] that holds column [c]. *)
Definition getitem {A : Type} (df : DataFrame) (c : string)
    (get : Listing -> option A) : result (Series A) :=
  if has_column df c then Ok (map get (rows df)) else Raise (KeyError c).

(** [df[mask]]: the rows whose mask entry is [True]. *)
Fixpoint select_rows (l : list Listing) (mask : list bool) : list Listing :=
  match l, mask with
  | r :: l', b :: mask' =>
      if b then r :: select_rows l' mask' else select_rows l' mask'
  | _, _ => []
  end.

Definition getitem_mask (df : DataFrame) (mask : list bool) : DataFrame :=
  {| columns := columns df; rows := select_rows (rows df) mask |}.

(** [series == value]: a null cell compares unequal. *)
Definition eq_scalar {A : Type} `{Cell A} (value : A) (v : option A) : bool :=
  match v with
  | Some s => cell_eqb s value
  | None => false
  end.

(** [df.dropna(subset=subset)] *)
Definition dropna_subset (subset : list string) (df : DataFrame)
    : result DataFrame :=
  match filter (fun c => negb (has_column df c)) subset with
  | [] =>
      Ok {| columns := columns df;
            rows := filter (fun r =>
                      forallb (fun c => negb (cell_isnull c r)) subset)
                      (rows df) |}
  | missing => Raise (KeyErrorSubset missing)
  end.

(** *** Series *)

(** [s.dropna()] as the list of the values left. *)
Fixpoint dropna {A : Type} (s : Series A) : list A :=
  match s with
  | [] => []
  | Some v :: s' => v :: dropna s'
  | None :: s' => dropna s'
  end.

(** [s.isnull().all()] *)
Definition isnull_all {A : Type} (s : Series A) : bool := forallb isnull s.

(** Distinct values in order of first appearance ([Series.unique], and the
    key order of the hash table behind [mode] and [value_counts]). *)
Fixpoint unique {A : Type} `{Cell A} (l : list A) : list A :=
  match l with
  | [] => []
  | x :: l' => x :: filter (fun y => negb (cell_eqb y x)) (unique l')
  end.

(** [s.nunique()]: number of distinct non-null values. *)
Definition nunique {A : Type} `{Cell A} (s : Series A) : nat :=
  List.length (unique (dropna s)).

Definition count {A : Type} `{Cell A} (l : list A) (v : A) : nat :=
  count_occ cell_eq_dec l v.

(** Each distinct value with its number of occurrences, first seen first. *)
Definition counts {A : Type} `{Cell A} (l : list A) : list (A * nat) :=
  map (fun k => (k, count l k)) (unique l).

Definition max_count {A : Type} (kc : list (A * nat)) : nat :=
  fold_right Nat.max 0%nat (map snd kc).

(** [s.mode()]: the non-null values of highest count, sorted ascending;
    left as the hash table lists them when numpy cannot sort them. *)
Definition mode {A : Type} `{Cell A} (s : Series A) : list A :=
  let kc := counts (dropna s) in
  let modes := map fst (filter (fun p => (snd p =? max_count kc)%nat) kc) in
  if cell_sortable modes then sort cell_leb modes else modes.

Definition count_geb {A : Type} (p q : A * nat) : bool := (snd q <=? snd p)%nat.

(** [s.value_counts()]: distinct non-null values by descending count. *)
Definition value_counts {A : Type} `{Cell A} (s : Series A) : list (A * nat) :=
  sort count_geb (counts (dropna s)).

(** [counted.nlargest(n)] with the default [keep='first']. *)
Definition nlargest {A : Type} (n : nat) (kc : list (A * nat))
    : list (A * nat) :=
  firstn n (sort count_geb kc).

(** [s.mean()] on a float64 column: nulls are skipped; NaN ([None]) when
    nothing is left. *)
Definition mean {lib : Library} (s : Series float) : option float :=
  match dropna s with
  | [] => None
  | v => Some (nanmean v)
  end.

(** [s.median()] on an int64 column: nulls are skipped, the values are
    converted to float64; the middle one, or half the float64 sum of the
    two middle ones; NaN ([None]) when nothing is left. *)
Definition median (s : Series Z) : option float :=
  let v := sort Z.leb (dropna s) in
  let n := List.length v in
  match n with
  | O => None
  | _ =>
      if Nat.odd n then Some (float_of_Z (nth (n / 2) v 0%Z))
      else Some ((float_of_Z (nth (n / 2 - 1) v 0%Z)
                  + float_of_Z (nth (n / 2) v 0%Z)) / 2)%float
  end.

(** *** Strings *)

(** The dtype [read_csv] gives a column of categories: object when a value
    is text (and for a file without rows), numeric otherwise.  A column
    selected from a frame keeps the dtype it has in the frame. *)
Definition dtype_object (column : Series scalar) : bool :=
  (List.length column =? 0)%nat || existsb is_text (dropna column).

(** Does [s.str] exist?  pandas infers the type of the non-null values of
    a column of dtype object ([object] tells) and accepts text, text mixed
    with numbers, and no value at all; it refuses numbers only. *)
Definition has_str (object : bool) (s : Series scalar) : bool :=
  object
  && ((List.length (dropna s) =? 0)%nat || existsb is_text (dropna s)).

(** [s.str.lower()]: a null stays null and a cell that is no text becomes
    null. *)
Definition str_lower {lib : Library} (object : bool) (s : Series scalar)
    : result (Series string) :=
  if has_str object s then
    Ok (map (fun c => match c with
                      | Some (Str name) => Some (lower name)
                      | _ => None
                      end) s)
  else Raise (AttributeError "Can only use .str accessor with string values!").

(** [s.str.contains(pat)]; [regex=True] is the default: the pattern is
    compiled first, and a null cell gives a null entry. *)
Definition str_contains {lib : Library} (pat : string) (s : Series string)
    : result (Series bool) :=
  r <- re_compile pat ;;
  Ok (map (option_map (re_search r)) s).

(** A series used as a mask must not hold a null. *)
Fixpoint as_mask (s : Series bool) : result (list bool) :=
  match s with
  | [] => Ok []
  | Some b :: s' => bind (as_mask s') (fun m => Ok (b :: m))
  | None :: s' =>
      Raise (ValueError
               "Cannot mask with non-boolean array containing NA / NaN values")
  end.

End Pandas.

Import Pandas.

(** ** The script *)

Module App.

(** The columns [load_data] requires to be filled. *)
Definition required : list string :=
  ["manufacturer"; "model"; "year"; "price"; "lat"; "long";
   "cylinders"; "fuel"; "drive"].

(** [load_data()].  [read_csv] is the outcome of [pd.read_csv("vehicles.csv")]:
    the frame read, or the exception raised.  The result pairs the frame
    returned with the messages passed to [st.error]. *)
Definition load_data (read_csv : result DataFrame)
    : DataFrame * list string :=
  match (df <- read_csv ;; dropna_subset required df) with
  | Ok df => (df, [])
  | Raise e => (DataFrame_empty, [("Error loading data: " ++ str e)%string])
  end.

(** What a page puts on the screen: its content, or an [st.warning]. *)
Inductive shown (A : Type) : Type :=
| Rendered (a : A)
| Warning (msg : string).
Arguments Rendered {A} a.
Arguments Warning {A} msg.

(** The options of both manufacturer select boxes. *)
Definition brand_options (df : DataFrame) : result (list string) :=
  man <- getitem df "manufacturer" manufacturer ;;
  Ok (sort str_leb (unique (dropna man))).

(** *** Home *)

Record Metrics : Type := mkMetrics {
  total_listings : nat;
  unique_brands : nat;
  unique_models : nat
}.

Definition home (df : DataFrame) : result Metrics :=
  let total := len df in
  brands <- getitem df "manufacturer" manufacturer ;;
  models <- getitem df "model" model ;;
  Ok {| total_listings := total;
        unique_brands := nunique brands;
        unique_models := nunique models |}.

(** *** Models by Company *)

Inductive year_cell : Type :=
| YearInt (y : Z)
| YearNA.

(** One row of [grouped], after [reset_index]. *)
Record GroupedRow : Type := mkGroupedRow {
  row_model : scalar;
  row_price : option float;
  row_drive : string;
  row_type : string;
  row_transmission : string;
  row_fuel : string;
  row_cylinders : scalar;
  row_year : year_cell
}.

(** [lambda x: x.mode().iat[0] if not x.mode().empty else 'N/A'] *)
Definition mode_or_na {A : Type} `{Cell A} (x : Series A) : A :=
  match mode x with
  | v :: _ => v
  | [] => cell_na
  end.

(** [lambda x: int(x.median()) if not x.isnull().all() else 'N/A'].
    The median of a series is NaN only when all its values are null
    ([median_none_iff] below), so [int] never meets a NaN. *)
Definition median_or_na (x : Series Z) : year_cell :=
  if negb (isnull_all x) then
    match median x with
    | Some m => YearInt (int m)
    | None => YearNA
    end
  else YearNA.

Definition agg {lib : Library} (key : scalar) (group : list Listing)
    : GroupedRow :=
  {| row_model := key;
     row_price := mean (map price group);
     row_drive := mode_or_na (map drive group);
     row_type := mode_or_na (map type group);
     row_transmission := mode_or_na (map transmission group);
     row_fuel := mode_or_na (map fuel group);
     row_cylinders := mode_or_na (map cylinders group);
     row_year := median_or_na (map year group) |}.

(** [groupby('model')]: one group per distinct non-null model, keys in
    ascending order, the rows of a group in frame order. *)
Definition groupby_model (l : list Listing) : list (scalar * list Listing) :=
  map (fun k => (k, filter (fun r => eq_scalar k (model r)) l))
      (sort cell_leb (unique (dropna (map model l)))).

Definition grouped {lib : Library} (l : list Listing) : list GroupedRow :=
  map (fun kg => agg (fst kg) (snd kg)) (groupby_model l).

Definition models_columns : list string :=
  ["manufacturer"; "model"; "price"; "drive"; "type"; "transmission";
   "year"; "fuel"; "cylinders"].

Definition models_by_company {lib : Library} (df : DataFrame)
    (selected_brand text_input : string)
    : result (shown (list GroupedRow)) :=
  if negb (empty df) && issubset models_columns df then
    man <- getitem df "manufacturer" manufacturer ;;
    brand_df <- dropna_subset ["model"]
                  (getitem_mask df (map (eq_scalar selected_brand) man)) ;;
    let search_query := lower text_input in
    if negb (empty brand_df) then
      brand_df <-
        (if negb (search_query =? "") then
           names <- getitem brand_df "model" model ;;
           lowered <- str_lower (dtype_object (map model (rows df))) names ;;
           hits <- str_contains search_query lowered ;;
           mask <- as_mask hits ;;
           Ok (getitem_mask brand_df mask)
         else Ok brand_df) ;;
      if negb (empty brand_df) then Ok (Rendered (grouped (rows brand_df)))
      else Ok (Warning "No matching models found.")
    else Ok (Warning "No models found for this company.")
  else Ok (Warning "Required columns are missing from the dataset.").

(** The sequence of summaries the page shows; a warning shows none. *)
Definition modelsForManufacturer {lib : Library} (df : DataFrame)
    (selected_brand text_input : string) : result (list GroupedRow) :=
  out <- models_by_company df selected_brand text_input ;;
  match out with
  | Rendered cards => Ok cards
  | Warning _ => Ok []
  end.

(** *** Most Listed Vehicle Brands *)

Definition most_listed_brands (df : DataFrame)
    : result (shown (list (string * nat))) :=
  if negb (empty df) && has_column df "manufacturer" then
    man <- getitem df "manufacturer" manufacturer ;;
    let manufacturer_counts := nlargest 10 (value_counts man) in
    Ok (Rendered manufacturer_counts)
  else Ok (Warning "No data or 'manufacturer' column missing.").

(** The ranking the page plots; a warning plots none. *)
Definition topManufacturers (df : DataFrame) : result (list (string * nat)) :=
  out <- most_listed_brands df ;;
  match out with
  | Rendered manufacturer_counts => Ok manufacturer_counts
  | Warning _ => Ok []
  end.

(** *** Transmission vs Type, Manufacturer vs Drive

    [px.histogram] and [px.bar] receive the frame and two labels; the model
    keeps the pair of cells each row contributes. *)

Definition plotly_column {A : Type} (df : DataFrame) (c : string)
    (get : Listing -> option A) : result (Series A) :=
  if has_column df c then Ok (map get (rows df)) else Raise (ValueError c).

Definition transmission_vs_type (df : DataFrame)
    : result (shown (list (option string * option string))) :=
  if negb (empty df) then
    x <- plotly_column df "transmission" transmission ;;
    color <- plotly_column df "type" type ;;
    Ok (Rendered (combine x color))
  else Ok (Warning "Data not loaded.").

Definition manufacturer_vs_drive (df : DataFrame)
    : result (shown (list (option string * option string))) :=
  if negb (empty df) then
    x <- plotly_column df "manufacturer" manufacturer ;;
    color <- plotly_column df "drive" drive ;;
    Ok (Rendered (combine x color))
  else Ok (Warning "Data not loaded.").

(** *** Brand-Specific Heatmap *)

(** What reaches folium: the centre handed to [folium.Map] and the points
    handed to [HeatMap].  A mean is NaN ([None]) when every cell of its
    column is null. *)
Record HeatMap : Type := mkHeatMap {
  location : option float * option float;
  heat_data : list (option float * option float)
}.

Definition brand_heatmap {lib : Library} (df : DataFrame)
    (selected_brand : string) : result (shown HeatMap) :=
  if negb (empty df) && issubset ["manufacturer"; "lat"; "long"] df then
    man <- getitem df "manufacturer" manufacturer ;;
    let brand_df := getitem_mask df (map (eq_scalar selected_brand) man) in
    if negb (empty brand_df) then
      lats <- getitem brand_df "lat" lat ;;
      longs <- getitem brand_df "long" long ;;
      Ok (Rendered
            {| location := (mean lats, mean longs);
               heat_data := map (fun row => (lat row, long row))
                                (rows brand_df) |})
    else Ok (Warning "No data available for this manufacturer.")
  else
    Ok (Warning
          "Required columns ('manufacturer', 'lat', 'long') not found in dataset.").

End App.

Import App.

(** ** The vocabulary of the specification

    Predicates in which the contracts are stated.  They say what a result is,
    not how the script computes it. *)

Module Spec.

(** A listing with the nine required fields filled. *)
Definition required_filled (r : Listing) : Prop :=
  manufacturer r <> None /\ model r <> None /\ year r <> None
  /\ price r <> None /\ lat r <> None /\ long r <> None
  /\ cylinders r <> None /\ fuel r <> None /\ drive r <> None.

(** [l] lists the distinct values of [vals], each once. *)
Definition distinct_values {A : Type} (vals l : list A) : Prop :=
  NoDup l /\ forall v, In v l <-> In v vals.



(** [v] occurs in [vals] and nothing occurs more often. *)
Definition most_frequent {A : Type} `{Cell A} (vals : list A) (v : A) : Prop :=
  In v vals /\ forall w, (count vals w <= count vals v)%nat.

(** The tie-break the specification words: among the most frequent
    values, the one met first in row order. *)
Definition first_seen_mode {A : Type} `{Cell A} (vals : list A) : option A :=
  find (fun v => (count vals v =? max_count (counts vals))%nat) vals.

(** The text a model is shown and searched by. *)
Definition model_name (c : scalar) : string :=
  match c with
  | Str name => name
  | Num z => DecimalString.NilZero.string_of_int (Z.to_int z)
  end.





(** [sub] occurs in [s] as a run of consecutive characters. *)
Definition is_substring (sub s : string) : Prop :=
  exists pre post, s = (pre ++ sub ++ post)%string.

Fixpoint is_substringb (sub s : string) : bool :=
  String.prefix sub s
  || match s with
     | EmptyString => false
     | String _ s' => is_substringb sub s'
     end.

(** The search the specification words: the model name contains the text,
    letter case ignored. *)
Definition contains_ignoring_case {lib : Library} (text name : string)
    : bool :=
  is_substringb (lower text) (lower name).

(** The subset the specification words: the rows of the manufacturer that
    have a model and, when a text is given, whose model name contains it,
    letter case ignored. *)
Definition matching_rows {lib : Library} (df : DataFrame)
    (brand text : string) : list Listing :=
  filter (fun row => eq_scalar brand (manufacturer row)
                     && match model row with
                        | Some c =>
                            (text =? "")
                            || contains_ignoring_case text (model_name c)
                        | None => false
                        end)
         (rows df).

(** The search the page performs: the lower-cased text, read as a
    pattern, matches somewhere in the lower-cased model name. *)
Definition search_hit {lib : Library} (text : string) (row : Listing)
    : bool :=
  (lower text =? "")
  || match re_compile (lower text), model row with
     | Ok r, Some (Str name) => re_search r (lower name)
     | _, _ => false
     end.

(** Is the model of the row a text? *)
Definition text_model (r : Listing) : bool :=
  match model r with
  | Some (Str _) => true
  | _ => false
  end.

(** The rows of the chosen manufacturer that have a model. *)
Definition brand_rows (df : DataFrame) (brand : string) : list Listing :=
  filter (fun r => eq_scalar brand (manufacturer r) && negb (isnull (model r)))
         (rows df).

(** The filtered-and-searched subset behind "Models by Company". *)
Definition filtered_rows {lib : Library} (df : DataFrame)
    (brand text : string) : list Listing :=
  filter (fun row => eq_scalar brand (manufacturer row)
                     && negb (isnull (model row))
                     && search_hit text row)
         (rows df).

(** [v] is a most frequent value of [vals]; when the most frequent values
    can be sorted (all of them are text, or all of them are numbers) it is
    the least of them in the order of the column.  [tied] lists the most
    frequent values. *)
Definition least_most_frequent {A : Type} `{Cell A} (vals : list A) (v : A)
    : Prop :=
  most_frequent vals v
  /\ forall tied,
       (forall w, In w tied <-> most_frequent vals w) ->
       cell_sortable tied = true ->
       forall w, most_frequent vals w -> cell_le v w.

(** The modal field of a summary: the text ["N/A"] when the group has no
    value of the column, and else the least most frequent one. *)
Definition is_modal {A : Type} `{Cell A} (x : Series A) (v : A) : Prop :=
  match dropna x with
  | [] => v = cell_na
  | vals => least_most_frequent vals v
  end.

Definition str_lt (a b : string) : Prop := String_as_OT.lt a b.

(** The order of the summaries: numbers by value, before texts by code
    point. *)
Definition scalar_lt (a b : scalar) : Prop :=
  match a, b with
  | Num x, Num y => (x < y)%Z
  | Num _, Str _ => True
  | Str _, Num _ => False
  | Str x, Str y => str_lt x y
  end.




(** The rows of the chosen manufacturer: [brand_df] of the heatmap. *)
Definition heat_rows (df : DataFrame) (brand : string) : list Listing :=
  filter (fun r => eq_scalar brand (manufacturer r)) (rows df).

End Spec.

Import Spec.

(** ** Sample data used by the examples *)

Module Sample.

(** *** A library for the examples

    Python on the inputs of the examples, which are ASCII: [str.lower] on
    ASCII text; the patterns made of literal characters and of the dot,
    matched as [re] matches them on ASCII text; an opening parenthesis that
    is never closed, on which [re.compile] raises; the float64 mean of one
    or two values. *)

Definition lower_ascii (c : ascii) : ascii :=
  let n := nat_of_ascii c in
  if ((65 <=? n) && (n <=? 90))%nat then ascii_of_nat (n + 32) else c.

Fixpoint ascii_lower (s : string) : string :=
  match s with
  | EmptyString => EmptyString
  | String c s' => String (lower_ascii c) (ascii_lower s')
  end.

Inductive atom : Type :=
| Lit (c : ascii)   (* a character that stands for itself *)
| Dot.              (* [.]: any character but a newline *)

(** The characters [re] gives a meaning of their own. *)
Definition metachars : list ascii :=
  list_ascii_of_string ".^$*+?{}[]\|()".

Definition mem_ascii (c : ascii) (l : list ascii) : bool :=
  existsb (Ascii.eqb c) l.

Fixpoint atoms (pat : string) : option (list atom) :=
  match pat with
  | EmptyString => Some []
  | String c pat' =>
      match atoms pat' with
      | None => None
      | Some r =>
          if Ascii.eqb c "." then Some (Dot :: r)
          else if mem_ascii c metachars then None
          else Some (Lit c :: r)
      end
  end.

(** An opening parenthesis is never closed in a pattern that has no other
    operator than dots: [re.compile] raises [re.error]. *)
Fixpoint only_open (pat : string) : bool :=
  match pat with
  | EmptyString => true
  | String c pat' =>
      (Ascii.eqb c "(" || Ascii.eqb c "."
       || negb (mem_ascii c metachars)) && only_open pat'
  end.

Definition compile (pat : string) : result (list atom) :=
  match atoms pat with
  | Some r => Ok r
  | None =>
      if only_open pat
      then Raise (ReError "missing ), unterminated subpattern")
      else Raise (Unmodelled "regular expression operator")
  end.

Definition newline : ascii := ascii_of_nat 10.

Definition atom_matches (a : atom) (c : ascii) : bool :=
  match a with
  | Lit x => Ascii.eqb x c
  | Dot => negb (Ascii.eqb c newline)
  end.

(** Does the pattern match at the start of [s]? *)
Fixpoint match_here (re : list atom) (s : string) : bool :=
  match re, s with
  | [], _ => true
  | _ :: _, EmptyString => false
  | a :: re', String c s' => atom_matches a c && match_here re' s'
  end.

(** [re.search]: a match starting at some position of [s]. *)
Fixpoint search (re : list atom) (s : string) : bool :=
  match_here re s
  || match s with
     | EmptyString => false
     | String _ s' => search re s'
     end.

(** Sum from left to right, then one division: for one or two values,
    what every order of summation gives. *)
Definition mean_left_to_right (l : list float) : float :=
  (fold_left PrimFloat.add l 0 / float_of_Z (Z.of_nat (List.length l)))%float.

Lemma fold_left_float_sum (l pre : list float) (s : float) :
  float_sum pre s -> float_sum (pre ++ l) (fold_left PrimFloat.add l s).
Proof.
  revert pre s. induction l as [| y l IH]; intros pre s Hs.
  - rewrite app_nil_r. exact Hs.
  - cbn [fold_left].
    replace (pre ++ y :: l) with ((pre ++ [y]) ++ l)
      by (rewrite <- app_assoc; reflexivity).
    apply IH. apply sum_add; [exact Hs | apply sum_one].
Qed.

Lemma mean_left_to_right_mean (l : list float) :
  l <> [] -> is_mean l (mean_left_to_right l).
Proof.
  intros Hne. destruct l as [| x l]; [congruence |].
  exists (fold_left PrimFloat.add (x :: l) 0%float).
  split; [| reflexivity].
  cbn [fold_left]. apply (fold_left_float_sum l [x]).
  apply sum_zero_l, sum_one.
Qed.

#[global] Instance library : Library := {
  lower := ascii_lower;
  lower_empty := eq_refl;
  regex := list atom;
  re_compile := compile;
  re_search := search;
  nanmean := mean_left_to_right;
  nanmean_mean := mean_left_to_right_mean
}.

(** *** Frames *)

Definition all_columns : list string :=
  ["manufacturer"; "model"; "year"; "price"; "lat"; "long";
   "cylinders"; "fuel"; "drive"; "type"; "transmission"].

(** A listing with every required field filled and no type or
    transmission. *)
Definition listing (man mdl drv : string) (yr : Z) (prc lt lg : float)
    : Listing :=
  {| manufacturer := Some man; model := Some (Str mdl); year := Some yr;
     price := Some prc; lat := Some lt; long := Some lg;
     cylinders := Some (Str "6 cylinders"); fuel := Some "gas";
     drive := Some drv; type := None; transmission := None |}.

Definition f150_a : Listing := listing "ford" "f150" "rwd" 2011 100 10 20.
Definition f150_b : Listing := listing "ford" "f150" "fwd" 2012 201 30 40.
Definition focus : Listing := listing "ford" "Focus" "fwd" 2010 50 10 20.
Definition x5 : Listing := listing "bmw" "x5" "4wd" 2010 50 10 20.

Definition focus_b : Listing := listing "ford" "Focus" "fwd" 2014 70 10 20.
Definition focus_c : Listing := listing "ford" "Focus" "rwd" 2016 90 10 20.

(** A row without price: [load_data] drops it. *)
Definition unpriced : Listing :=
  {| manufacturer := Some "ford"; model := Some (Str "ka");
     year := Some 2001%Z;
     price := None; lat := Some 1%float; long := Some 2%float;
     cylinders := Some (Str "4 cylinders"); fuel := Some "gas";
     drive := Some "fwd"; type := Some "sedan";
     transmission := Some "manual" |}.

Definition vehicles : DataFrame :=
  {| columns := all_columns; rows := [f150_a; unpriced; f150_b; focus; x5] |}.

(** Thirteen listings of three brands: A and B five times each, A seen
    first, and C three times. *)
Definition of_brand (man : string) : Listing :=
  listing man "m" "fwd" 2015 1 0 0.

Definition brands : DataFrame :=
  {| columns := all_columns;
     rows := map of_brand
               ["A"; "C"; "B"; "B"; "A"; "C"; "A"; "B"; "A"; "B"; "C"; "B"; "A"] |}.

(** Two listings of brand X, at (10, 20) and at (30, 40). *)
Definition two_points : DataFrame :=
  {| columns := all_columns;
     rows := [listing "X" "m" "fwd" 2015 1 10 20;
              listing "X" "m" "fwd" 2015 1 30 40;
              listing "Y" "m" "fwd" 2015 1 50 60] |}.

(** A file without the [type] column, which [load_data] does not require. *)
Definition vehicles_no_type : DataFrame :=
  {| columns := ["manufacturer"; "model"; "year"; "price"; "lat"; "long";
                 "cylinders"; "fuel"; "drive"; "transmission"];
     rows := [f150_a; f150_b] |}.

(** The same file without its [price] column. *)
Definition vehicles_no_price : DataFrame :=
  {| columns := ["manufacturer"; "model"; "year"; "lat"; "long";
                 "cylinders"; "fuel"; "drive"; "type"; "transmission"];
     rows := [f150_a; f150_b] |}.

(** A file whose model and cylinders columns hold integers only: models 10
    and 9 of brand X, the first with 10 cylinders, the second with 4. *)
Definition numbered (mdl cyl : Z) : Listing :=
  {| manufacturer := Some "X"; model := Some (Num mdl); year := Some 2015%Z;
     price := Some 1%float; lat := Some 0%float; long := Some 0%float;
     cylinders := Some (Num cyl); fuel := Some "gas";
     drive := Some "fwd"; type := None; transmission := None |}.

Definition numbers : DataFrame :=
  {| columns := all_columns; rows := [numbered 10 10; numbered 9 4] |}.

End Sample.

(** ** The script as a whole: sidebar, load, page *)

Module Navigation.

(** The labels of [st.sidebar.radio("Go to", [...])]. *)
Definition pages : list string :=
  ["Home"; "Models by Company"; "Most Listed Vehicle Brands";
   "Transmission vs Type"; "Manufacturer vs Drive"; "Brand-Specific Heatmap"].

(** What one run of the script puts below the sidebar. *)
Inductive Screen : Type :=
| HomeScreen (m : Metrics)
| ModelsScreen (out : shown (list GroupedRow))
| BrandsScreen (out : shown (list (string * nat)))
| TransmissionScreen (out : shown (list (option string * option string)))
| DriveScreen (out : shown (list (option string * option string)))
| HeatmapScreen (out : shown HeatMap)
| Blank.

(** The [if page == ... elif ...] chain.  [selected_brand] and [text_input]
    are the values of the widgets of the page shown. *)
Definition render {lib : Library} (page : string) (df : DataFrame)
    (selected_brand text_input : string) : result Screen :=
  if page =? "Home" then
    m <- home df ;; Ok (HomeScreen m)
  else if page =? "Models by Company" then
    out <- models_by_company df selected_brand text_input ;;
    Ok (ModelsScreen out)
  else if page =? "Most Listed Vehicle Brands" then
    out <- most_listed_brands df ;; Ok (BrandsScreen out)
  else if page =? "Transmission vs Type" then
    out <- transmission_vs_type df ;; Ok (TransmissionScreen out)
  else if page =? "Manufacturer vs Drive" then
    out <- manufacturer_vs_drive df ;; Ok (DriveScreen out)
  else if page =? "Brand-Specific Heatmap" then
    out <- brand_heatmap df selected_brand ;; Ok (HeatmapScreen out)
  else Ok Blank.

(** One run: [df = load_data()], then the page.  The second component
    holds the messages of [st.error]. *)
Definition run {lib : Library} (read_csv : result DataFrame) (page : string)
    (selected_brand text_input : string) : result Screen * list string :=
  let loaded := load_data read_csv in
  (render page (fst loaded) selected_brand text_input, snd loaded).

(** The screen is an [st.warning] and nothing else. *)
Definition warns (s : Screen) : Prop :=
  match s with
  | ModelsScreen (Warning _) | BrandsScreen (Warning _)
  | TransmissionScreen (Warning _) | DriveScreen (Warning _)
  | HeatmapScreen (Warning _) => True
  | _ => False
  end.

End Navigation.

Import Navigation.

(** ** Frames: columns and row filters *)

Lemma has_column_In (df : DataFrame) (c : string) :
  has_column df c = true <-> In c (columns df).
Proof.
  unfold has_column. rewrite existsb_exists. split.
  - intros [x [Hin Heq]]. apply String.eqb_eq in Heq. now subst.
  - intros Hin. exists c. split; [assumption | apply String.eqb_refl].
Qed.

Lemma issubset_has_column (cs : list string) (df : DataFrame) (c : string) :
  issubset cs df = true -> In c cs -> has_column df c = true.
Proof.
  unfold issubset. rewrite forallb_forall. auto.
Qed.

Lemma select_rows_map (p : Listing -> bool) (l : list Listing) :
  select_rows l (map p l) = filter p l.
Proof.
  induction l as [| r l IH]; simpl; [reflexivity |].
  rewrite IH. reflexivity.
Qed.

Lemma dropna_subset_present (subset : list string) (df : DataFrame) :
  issubset subset df = true ->
  dropna_subset subset df =
  Ok {| columns := columns df;
        rows := filter (fun r => forallb (fun c => negb (cell_isnull c r)) subset)
                       (rows df) |}.
Proof.
  intros Hsub. unfold dropna_subset.
  replace (filter (fun c => negb (has_column df c)) subset) with (@nil string);
    [reflexivity |].
  symmetry. unfold issubset in Hsub. rewrite forallb_forall in Hsub.
  induction subset as [| c cs IH]; simpl; [reflexivity |].
  rewrite (Hsub c (or_introl eq_refl)). simpl.
  apply IH. intros x Hx. apply Hsub. now right.
Qed.

Lemma dropna_subset_absent (subset : list string) (df : DataFrame) (c : string) :
  In c subset -> has_column df c = false ->
  exists missing, dropna_subset subset df = Raise (KeyErrorSubset missing).
Proof.
  intros Hin Hc. unfold dropna_subset.
  destruct (filter (fun c0 => negb (has_column df c0)) subset) as [| m ms] eqn:Hf.
  - exfalso.
    assert (Hin' : In c (filter (fun c0 => negb (has_column df c0)) subset)).
    { apply filter_In. split; [assumption | now rewrite Hc]. }
    rewrite Hf in Hin'. exact Hin'.
  - now exists (m :: ms).
Qed.

Lemma required_filled_iff (r : Listing) :
  forallb (fun c => negb (cell_isnull c r)) required = true <-> required_filled r.
Proof.
  unfold required_filled. destruct r as [ma mo ye pr la lo cy fu dr ty tr]. simpl.
  destruct ma, mo, ye, pr, la, lo, cy, fu, dr; simpl;
    (split; [intros H; try discriminate H; repeat split; discriminate
            | intros H; try reflexivity; exfalso; tauto]).
Qed.

(** ** The loader *)

Lemma load_data_read_ok (df : DataFrame) :
  issubset required df = true ->
  load_data (Ok df) =
  ({| columns := columns df;
      rows := filter (fun r => forallb (fun c => negb (cell_isnull c r)) required)
                     (rows df) |}, []).
Proof.
  intros Hsub. unfold load_data. simpl bind.
  now rewrite (dropna_subset_present required df Hsub).
Qed.

Lemma load_data_cases (read_csv : result DataFrame) :
  (exists df, read_csv = Ok df /\ issubset required df = true
              /\ load_data read_csv =
                 ({| columns := columns df;
                     rows := filter (fun r => forallb (fun c => negb (cell_isnull c r))
                                                      required) (rows df) |}, []))
  \/ (exists e, load_data read_csv
                = (DataFrame_empty, [("Error loading data: " ++ str e)%string])).
Proof.
  destruct read_csv as [df | e].
  - destruct (issubset required df) eqn:Hsub.
    + left. exists df. repeat split; auto using load_data_read_ok.
    + right. unfold issubset in Hsub.
      assert (Hex : exists c, In c required /\ has_column df c = false).
      { apply not_true_iff_false in Hsub.
        destruct (existsb (fun c => negb (has_column df c)) required) eqn:He.
        - apply existsb_exists in He. destruct He as [c [Hin Hc]].
          exists c. split; [assumption |]. now apply negb_true_iff.
        - exfalso. apply Hsub. apply forallb_forall. intros c Hin.
          destruct (has_column df c) eqn:Hc; [reflexivity |].
          assert (Ht : existsb (fun c0 => negb (has_column df c0)) required = true).
          { apply existsb_exists. exists c. split; [assumption | now rewrite Hc]. }
          rewrite Ht in He. discriminate He. }
      destruct Hex as [c [Hin Hc]].
      destruct (dropna_subset_absent required df c Hin Hc) as [missing Hm].
      exists (KeyErrorSubset missing). unfold load_data. simpl bind.
      now rewrite Hm.
  - right. exists e. reflexivity.
Qed.

(** C4.  Whenever reading the file fails, or the file read lacks one of the
    nine required columns (such as [price]), [load_data] returns the empty
    frame, which has no row, together with exactly one error message, built
    from the exception; being a value of a pair type, the call itself does not
    raise. *)
Theorem load_data_failure_gives_empty (read_csv : result DataFrame) :
  (exists e, read_csv = Raise e)
  \/ (exists df c, read_csv = Ok df /\ In c required /\ has_column df c = false) ->
  exists e,
    load_data read_csv
    = (DataFrame_empty, [("Error loading data: " ++ str e)%string])
    /\ len (fst (load_data read_csv)) = 0%nat.
Proof.
  intros [[e He] | [df [c [Hdf [Hin Hc]]]]]; subst read_csv.
  - exists e. split; reflexivity.
  - destruct (dropna_subset_absent required df c Hin Hc) as [missing Hm].
    exists (KeyErrorSubset missing). unfold load_data. simpl bind.
    rewrite Hm. split; reflexivity.
Qed.

Lemma load_data_failure_gives_empty_witness :
  (exists e,
     load_data (Ok Sample.vehicles_no_price)
     = (DataFrame_empty, [("Error loading data: " ++ str e)%string])
     /\ len (fst (load_data (Ok Sample.vehicles_no_price))) = 0%nat)
  /\ load_data (Ok Sample.vehicles_no_price)
     = (DataFrame_empty, ["Error loading data: ['price']"]).
Proof.
  split; [| reflexivity].
  apply (load_data_failure_gives_empty (Ok Sample.vehicles_no_price)).
  right. exists Sample.vehicles_no_price, "price".
  split; [reflexivity |]. split; [| reflexivity].
  simpl. tauto.
Defined.

Lemma load_data_filled (read_csv : result DataFrame) :
  Forall required_filled (rows (fst (load_data read_csv))).
Proof.
  apply Forall_forall. intros r.
  destruct (load_data_cases read_csv) as [[df [_ [_ Hl]]] | [e Hl]];
    rewrite Hl; simpl.
  - intros Hin. apply filter_In in Hin. now apply required_filled_iff.
  - intros [].
Qed.

(** C3.  Every row of the frame [load_data] returns has its nine required
    fields filled: a row with any of them null is not in the result. *)
Theorem load_data_rows_filled (read_csv : result DataFrame) (r : Listing) :
  In r (rows (fst (load_data read_csv))) -> required_filled r.
Proof.
  intros Hin.
  exact (proj1 (Forall_forall _ _) (load_data_filled read_csv) r Hin).
Qed.

Lemma load_data_rows_filled_witness :
  In Sample.f150_a (rows (fst (load_data (Ok Sample.vehicles))))
  /\ required_filled Sample.f150_a
  /\ ~ In Sample.unpriced (rows (fst (load_data (Ok Sample.vehicles)))).
Proof.
  assert (Hin : In Sample.f150_a (rows (fst (load_data (Ok Sample.vehicles))))).
  { simpl. left. reflexivity. }
  split; [exact Hin |]. split.
  - exact (load_data_rows_filled (Ok Sample.vehicles) Sample.f150_a Hin).
  - intros Hu.
    apply (load_data_rows_filled (Ok Sample.vehicles)) in Hu.
    destruct Hu as [_ [_ [_ [Hp _]]]]. apply Hp. reflexivity.
Defined.

Lemma combine_map {A B C : Type} (f : A -> B) (g : A -> C) (l : list A) :
  combine (map f l) (map g l) = map (fun x => (f x, g x)) l.
Proof.
  induction l as [| x l IH]; simpl; [reflexivity | now rewrite IH].
Qed.

Lemma empty_false (df : DataFrame) (c : string) (r : Listing) :
  has_column df c = true -> In r (rows df) -> empty df = false.
Proof.
  intros Hc Hr. unfold empty.
  apply has_column_In in Hc.
  destruct (columns df); [destruct Hc |].
  destruct (rows df); [destruct Hr |]. reflexivity.
Qed.

(** C10.  A row with its nine required fields filled survives [load_data]
    also when its type or its transmission is null; the pairs handed to the
    "Transmission vs Type" chart then contain that row's null cell. *)
Theorem load_data_keeps_null_type_transmission (df : DataFrame) (r : Listing) :
  issubset required df = true ->
  In r (rows df) ->
  required_filled r ->
  type r = None \/ transmission r = None ->
  In r (rows (fst (load_data (Ok df))))
  /\ (has_column df "transmission" = true ->
      has_column df "type" = true ->
      exists pairs,
        transmission_vs_type (fst (load_data (Ok df))) = Ok (Rendered pairs)
        /\ In (transmission r, type r) pairs).
Proof.
  intros Hsub Hin Hfilled _.
  rewrite (load_data_read_ok df Hsub). simpl fst.
  assert (Hkept : In r (filter (fun r0 => forallb (fun c => negb (cell_isnull c r0))
                                                 required) (rows df))).
  { apply filter_In. split; [assumption | now apply required_filled_iff]. }
  split; [exact Hkept |].
  intros Htr Hty. unfold transmission_vs_type.
  erewrite empty_false; [| exact Hty | exact Hkept].
  unfold plotly_column, has_column in *. simpl columns. simpl rows.
  rewrite Htr, Hty. simpl.
  eexists. split; [reflexivity |].
  rewrite combine_map.
  apply (in_map (fun x => (transmission x, type x))). exact Hkept.
Qed.

Lemma load_data_keeps_null_type_transmission_witness :
  (In Sample.f150_a (rows (fst (load_data (Ok Sample.vehicles))))
   /\ (has_column Sample.vehicles "transmission" = true ->
       has_column Sample.vehicles "type" = true ->
       exists pairs,
         transmission_vs_type (fst (load_data (Ok Sample.vehicles)))
         = Ok (Rendered pairs)
         /\ In (transmission Sample.f150_a, type Sample.f150_a) pairs))
  /\ type Sample.f150_a = None
  /\ mode_or_na (map type (rows (fst (load_data (Ok Sample.vehicles))))) = "N/A".
Proof.
  split; [| split; reflexivity].
  apply (load_data_keeps_null_type_transmission Sample.vehicles Sample.f150_a).
  - reflexivity.
  - simpl. left. reflexivity.
  - unfold required_filled. simpl. repeat split; discriminate.
  - left. reflexivity.
Defined.

(** ** Insertion sort: permutation, order, stability *)

Section SortingFacts.
Context {A : Type} (leb : A -> A -> bool).

Lemma insert_perm (x : A) (l : list A) : Permutation (insert leb x l) (x :: l).
Proof.
  induction l as [| y l IH]; simpl; [apply Permutation_refl |].
  destruct (leb x y); [apply Permutation_refl |].
  eapply perm_trans; [apply perm_skip, IH | apply perm_swap].
Qed.

Lemma sort_perm (l : list A) : Permutation (sort leb l) l.
Proof.
  induction l as [| x l IH]; simpl; [constructor |].
  eapply perm_trans; [apply insert_perm | now apply perm_skip].
Qed.

Lemma sort_In (l : list A) (x : A) : In x (sort leb l) <-> In x l.
Proof.
  split; apply Permutation_in;
    [apply sort_perm | apply Permutation_sym, sort_perm].
Qed.

Lemma sort_length (l : list A) : List.length (sort leb l) = List.length l.
Proof. apply Permutation_length, sort_perm. Qed.

(** A sorted list is left as it is. *)
Lemma sort_id (l : list A) : Sorted (fun a b => leb a b = true) l -> sort leb l = l.
Proof.
  induction 1 as [| x l Hs IH Hhd]; simpl; [reflexivity |].
  rewrite IH. destruct Hhd as [| y l Hxy]; simpl; [reflexivity |].
  now rewrite Hxy.
Qed.



Hypothesis leb_total : forall a b, leb a b = true \/ leb b a = true.

Lemma insert_sorted (x : A) (l : list A) :
  Sorted (fun a b => leb a b = true) l -> Sorted (fun a b => leb a b = true) (insert leb x l).
Proof.
  induction 1 as [| y l Hs IH Hhd]; simpl.
  - repeat constructor.
  - destruct (leb x y) eqn:Hxy.
    + constructor; [now constructor | now constructor].
    + constructor; [exact IH |].
      assert (Hyx : leb y x = true).
      { destruct (leb_total x y) as [H | H]; [congruence | exact H]. }
      destruct Hhd as [| z l Hyz]; simpl.
      * now constructor.
      * destruct (leb x z); now constructor.
Qed.

Lemma sort_sorted (l : list A) : Sorted (fun a b => leb a b = true) (sort leb l).
Proof.
  induction l as [| x l IH]; simpl; [constructor | now apply insert_sorted].
Qed.

Hypothesis leb_trans :
  forall a b c, leb a b = true -> leb b c = true -> leb a c = true.

Lemma sort_strongly_sorted (l : list A) : StronglySorted (fun a b => leb a b = true) (sort leb l).
Proof.
  apply Sorted_StronglySorted; [| apply sort_sorted].
  intros a b c. apply leb_trans.
Qed.
End SortingFacts.


(** ** The order on strings and on cells *)

Lemma str_leb_le (a b : string) : str_leb a b = true <-> str_le a b.
Proof.
  unfold str_leb, str_le.
  destruct (String_as_OT.compare a b); split; intros H;
    try reflexivity; try discriminate; try congruence.
Qed.

Lemma str_leb_total (a b : string) : str_leb a b = true \/ str_leb b a = true.
Proof.
  unfold str_leb.
  destruct (String_as_OT.compare_spec a b) as [Heq | Hlt | Hgt]; auto.
  right. unfold String_as_OT.lt in Hgt. now rewrite Hgt.
Qed.

Lemma str_leb_trans (a b c : string) :
  str_leb a b = true -> str_leb b c = true -> str_leb a c = true.
Proof.
  unfold str_leb.
  destruct (String_as_OT.compare_spec a b) as [Hab | Hab | Hab];
    [red in Hab; subst b; auto | | discriminate].
  destruct (String_as_OT.compare_spec b c) as [Hbc | Hbc | Hbc];
    [red in Hbc; subst c | | discriminate]; intros _ _.
  - unfold String_as_OT.lt in Hab. now rewrite Hab.
  - assert (Hac : String_as_OT.lt a c)
      by (eapply (@StrictOrder_Transitive _ _ String_as_OT.lt_strorder); eassumption).
    unfold String_as_OT.lt in Hac. now rewrite Hac.
Qed.

Lemma str_leb_neq_lt (a b : string) : str_leb a b = true -> a <> b -> str_lt a b.
Proof.
  unfold str_leb, str_lt.
  destruct (String_as_OT.compare_spec a b) as [Hab | Hab | Hab];
    [red in Hab; contradiction | auto | discriminate].
Qed.

Lemma str_le_refl (a : string) : str_le a a.
Proof.
  apply str_leb_le. destruct (str_leb_total a a); assumption.
Qed.

Lemma scalar_leb_neq_lt (a b : scalar) :
  scalar_leb a b = true -> a <> b -> scalar_lt a b.
Proof.
  destruct a as [x | x], b as [y | y]; simpl; intros Hle Hne;
    try discriminate; try exact I.
  - apply str_leb_neq_lt; [exact Hle | congruence].
  - apply Z.leb_le in Hle.
    assert (x <> y) by congruence. lia.
Qed.

Lemma same_kind_incl (l l' : list scalar) :
  incl l l' -> same_kind l' = true -> same_kind l = true.
Proof.
  unfold same_kind. intros Hincl H.
  apply orb_true_iff in H. apply orb_true_iff.
  destruct H as [H | H]; [left | right];
    rewrite forallb_forall in *; intros c Hc; apply H, Hincl, Hc.
Qed.

#[global] Instance CellOrder_string : CellOrder string.
Proof.
  split.
  - exact str_leb_total.
  - exact str_leb_trans.
  - reflexivity.
Qed.

#[global] Instance CellOrder_scalar : CellOrder scalar.
Proof.
  split.
  - intros [x | x] [y | y]; simpl; auto using str_leb_total.
    destruct (Z.leb_spec x y); [now left | right; apply Z.leb_le; lia].
  - intros [x | x] [y | y] [z | z]; simpl; try discriminate; auto.
    + apply str_leb_trans.
    + rewrite !Z.leb_le. lia.
  - exact same_kind_incl.
Qed.

Section CellFacts.
Context {A : Type} `{Cell A}.

Lemma cell_eqb_eq (x y : A) : cell_eqb x y = true <-> x = y.
Proof.
  unfold cell_eqb. destruct (cell_eq_dec x y); split; congruence.
Qed.

Lemma cell_eqb_neq (x y : A) : cell_eqb x y = false <-> x <> y.
Proof.
  unfold cell_eqb. destruct (cell_eq_dec x y); split; congruence.
Qed.

Lemma cell_eqb_refl (x : A) : cell_eqb x x = true.
Proof. now apply cell_eqb_eq. Qed.

Lemma eq_scalar_iff (value : A) (v : option A) :
  eq_scalar value v = true <-> v = Some value.
Proof.
  destruct v as [s |]; simpl; [| split; discriminate].
  rewrite cell_eqb_eq. split; congruence.
Qed.

(** ** Distinct values and their counts *)

Lemma unique_In (l : list A) (x : A) : In x (unique l) <-> In x l.
Proof.
  induction l as [| a l IH]; simpl; [tauto |].
  rewrite filter_In, IH, negb_true_iff, cell_eqb_neq.
  destruct (cell_eq_dec a x) as [-> | Hne]; [tauto |].
  split; [tauto |]. intros [Hx | Hx]; [contradiction | right; split; congruence].
Qed.

Lemma unique_NoDup (l : list A) : NoDup (unique l).
Proof.
  induction l as [| a l IH]; simpl; constructor.
  - rewrite filter_In, negb_true_iff, cell_eqb_neq. tauto.
  - now apply NoDup_filter.
Qed.

Lemma unique_distinct_values (l : list A) : distinct_values l (unique l).
Proof.
  split; [apply unique_NoDup | intros v; apply unique_In].
Qed.

Lemma distinct_values_length (vals l1 l2 : list A) :
  distinct_values vals l1 -> distinct_values vals l2 ->
  List.length l1 = List.length l2.
Proof.
  intros [Hn1 Hi1] [Hn2 Hi2]. apply Permutation_length.
  apply NoDup_Permutation; try assumption.
  intros v. now rewrite Hi1, Hi2.
Qed.

Lemma unique_nil (l : list A) : unique l = [] -> l = [].
Proof. destruct l; [reflexivity | discriminate]. Qed.

Lemma count_In (l : list A) (v : A) : (0 < count l v)%nat <-> In v l.
Proof. unfold count. symmetry. apply count_occ_In. Qed.

Lemma counts_In (l : list A) (k : A) (c : nat) :
  In (k, c) (counts l) <-> In k l /\ c = count l k.
Proof.
  unfold counts. rewrite in_map_iff. split.
  - intros [x [[= <- <-] Hin]]. rewrite unique_In in Hin. auto.
  - intros [Hin ->]. exists k. split; [reflexivity | now apply unique_In].
Qed.


Lemma max_count_ge (kc : list (A * nat)) (p : A * nat) :
  In p kc -> (snd p <= max_count kc)%nat.
Proof.
  unfold max_count. induction kc as [| q kc IH]; simpl; [tauto |].
  intros [-> | Hin]; [lia |]. specialize (IH Hin). lia.
Qed.

Lemma max_count_attained (kc : list (A * nat)) :
  kc <> [] -> exists p, In p kc /\ snd p = max_count kc.
Proof.
  unfold max_count. induction kc as [| q kc IH]; [congruence |]. intros _.
  destruct kc as [| q' kc'].
  - exists q. simpl. split; [auto | lia].
  - destruct IH as [p [Hin Hp]]; [discriminate |].
    simpl fold_right in *. simpl map in *.
    destruct (Nat.le_ge_cases (snd q) (fold_right Nat.max 0%nat (snd q' :: map snd kc')))
      as [Hle | Hge].
    + exists p. split; [now right |]. simpl in *. lia.
    + exists q. split; [now left |]. simpl in *. lia.
Qed.

Lemma count_le_max (l : list A) (w : A) :
  (count l w <= max_count (counts l))%nat.
Proof.
  destruct (in_dec cell_eq_dec w l) as [Hin | Hnin].
  - apply (max_count_ge (counts l) (w, count l w)). now apply counts_In.
  - unfold count. apply (count_occ_not_In cell_eq_dec) in Hnin. rewrite Hnin. lia.
Qed.

(** A value is most frequent exactly when its count is the largest one. *)
Lemma most_frequent_iff (l : list A) (v : A) :
  most_frequent l v <-> In v l /\ count l v = max_count (counts l).
Proof.
  unfold most_frequent. split; intros [Hin Hc]; split; try assumption.
  - apply Nat.le_antisymm; [apply count_le_max |].
    destruct (max_count_attained (counts l)) as [[k c] [Hk Hkc]].
    + intros Hnil. destruct l; [destruct Hin | discriminate Hnil].
    + apply counts_In in Hk. destruct Hk as [_ ->]. simpl in Hkc.
      rewrite <- Hkc. apply Hc.
  - intros w. rewrite Hc. apply count_le_max.
Qed.

(** ** [Series.mode] and the modal field *)

Lemma modes_In (l : list A) (v : A) :
  In v (map fst (filter (fun p => (snd p =? max_count (counts l))%nat) (counts l)))
  <-> most_frequent l v.
Proof.
  rewrite most_frequent_iff, in_map_iff. split.
  - intros [[k c] [Hk Hin]]. simpl in Hk. subst k.
    apply filter_In in Hin. destruct Hin as [Hin Hc].
    apply counts_In in Hin. destruct Hin as [Hin ->].
    simpl in Hc. apply Nat.eqb_eq in Hc. auto.
  - intros [Hin Hc]. exists (v, count l v). split; [reflexivity |].
    apply filter_In. split; [now apply counts_In |].
    simpl. now apply Nat.eqb_eq.
Qed.

Lemma mode_In (x : Series A) (v : A) :
  In v (mode x) <-> most_frequent (dropna x) v.
Proof.
  unfold mode.
  destruct (cell_sortable _); [rewrite sort_In |]; apply modes_In.
Qed.

Lemma mode_nonempty (x : Series A) : dropna x <> [] -> mode x <> [].
Proof.
  intros Hne Hnil.
  destruct (max_count_attained (counts (dropna x))) as [[k c] [Hk Hc]].
  - unfold counts. intros Hm. apply map_eq_nil in Hm. apply unique_nil in Hm.
    contradiction.
  - assert (Hin : In k (mode x)).
    { apply mode_In, most_frequent_iff.
      apply counts_In in Hk. destruct Hk as [Hin ->]. auto. }
    rewrite Hnil in Hin. exact Hin.
Qed.

Context `{!CellOrder A}.

Lemma cell_le_refl (a : A) : cell_le a a.
Proof. destruct (cell_leb_total a a); assumption. Qed.

(** When the most frequent values can be sorted, pandas returns them in
    ascending order. *)
Lemma mode_sorted (x : Series A) (tied : list A) :
  (forall w, In w tied <-> most_frequent (dropna x) w) ->
  cell_sortable tied = true ->
  StronglySorted (fun a b => cell_leb a b = true) (mode x).
Proof.
  intros Htied Hs. unfold mode.
  rewrite (cell_sortable_incl
             (map fst (filter (fun p => (snd p =? max_count (counts (dropna x)))%nat)
                              (counts (dropna x))))
             tied); [| | exact Hs].
  - apply sort_strongly_sorted; [apply cell_leb_total | apply cell_leb_trans].
  - intros v Hv. apply Htied. now apply modes_In.
Qed.

Lemma mode_or_na_modal (x : Series A) : is_modal x (mode_or_na x).
Proof.
  unfold is_modal, mode_or_na.
  destruct (dropna x) as [| v0 vals] eqn:Hx.
  - unfold mode. rewrite Hx. cbn.
    destruct (cell_sortable []); reflexivity.
  - assert (Hne : mode x <> []) by (apply mode_nonempty; rewrite Hx; discriminate).
    pose proof (mode_sorted x) as Hs.
    pose proof (mode_In x) as Hin. rewrite Hx in Hin, Hs.
    destruct (mode x) as [| v rest]; [congruence |].
    split; [apply Hin; now left |].
    intros tied Htied Hsort w Hw. apply Hin in Hw. destruct Hw as [<- | Hw].
    + apply cell_le_refl.
    + specialize (Hs tied Htied Hsort). inversion Hs as [| ? ? _ Hall]; subst.
      rewrite Forall_forall in Hall. now apply Hall.
Qed.

End CellFacts.

(** C2 (amended).  In the summary of a group, the value shown for each of
    drive, type, transmission, fuel and cylinders is ["N/A"] when the group
    has no value of that column, and else a most frequent value of the
    column in the group; when several values tie for the highest count, the
    one shown is the least of them in the order of the column: code-point
    order for text, numeric order for a cylinders column read as numbers
    (pandas returns the modes sorted, and the script takes the first). *)
Theorem modal_value_least_most_frequent {lib : Library} (key : scalar)
    (group : list Listing) :
  is_modal (map drive group) (row_drive (agg key group))
  /\ is_modal (map type group) (row_type (agg key group))
  /\ is_modal (map transmission group) (row_transmission (agg key group))
  /\ is_modal (map fuel group) (row_fuel (agg key group))
  /\ is_modal (map cylinders group) (row_cylinders (agg key group)).
Proof.
  repeat split; apply mode_or_na_modal.
Qed.

(** The group of the specification: drive values fwd, fwd, rwd give fwd.  A
    group whose cylinders are the numbers 10 and 4, once each, shows 4. *)
Lemma modal_value_least_most_frequent_witness :
  map drive [Sample.focus; Sample.focus_b; Sample.focus_c]
  = [Some "fwd"; Some "fwd"; Some "rwd"]
  /\ least_most_frequent ["fwd"; "fwd"; "rwd"]
       (row_drive (agg (Str "Focus")
                       [Sample.focus; Sample.focus_b; Sample.focus_c]))
  /\ row_drive (agg (Str "Focus")
                    [Sample.focus; Sample.focus_b; Sample.focus_c]) = "fwd"
  /\ least_most_frequent [Num 10; Num 4]
       (row_cylinders (agg (Num 1) (rows Sample.numbers)))
  /\ row_cylinders (agg (Num 1) (rows Sample.numbers)) = Num 4.
Proof.
  pose proof (modal_value_least_most_frequent (Str "Focus")
                [Sample.focus; Sample.focus_b; Sample.focus_c]) as Hd.
  pose proof (modal_value_least_most_frequent (Num 1) (rows Sample.numbers))
    as Hc.
  split; [reflexivity |].
  split; [exact (proj1 Hd) |].
  split; [reflexivity |].
  split; [exact (proj2 (proj2 (proj2 (proj2 Hc)))) | reflexivity].
Defined.

(** C2, as stated, fails: in a group whose drive values are rwd then fwd,
    both occur once; the first met in row order is rwd, the summary shows
    fwd. *)
Lemma modal_value_not_first_seen :
  map drive [Sample.f150_a; Sample.f150_b] = [Some "rwd"; Some "fwd"]
  /\ first_seen_mode (dropna (map drive [Sample.f150_a; Sample.f150_b]))
     = Some "rwd"
  /\ row_drive (agg (Str "f150") [Sample.f150_a; Sample.f150_b]) = "fwd"
  /\ Some (row_drive (agg (Str "f150") [Sample.f150_a; Sample.f150_b]))
     <> first_seen_mode (dropna (map drive [Sample.f150_a; Sample.f150_b])).
Proof.
  repeat split. discriminate.
Qed.
(** ** Order of occurrence in a list *)











(** ** Most Listed Vehicle Brands *)

Lemma count_geb_total {A : Type} (p q : A * nat) :
  count_geb p q = true \/ count_geb q p = true.
Proof.
  unfold count_geb. rewrite !Nat.leb_le. lia.
Qed.


Lemma value_counts_perm (s : Series string) :
  Permutation (value_counts s) (counts (dropna s)).
Proof. apply sort_perm. Qed.


(** [nlargest] finds the series already in order and cuts it. *)
Lemma nlargest_value_counts (n : nat) (s : Series string) :
  nlargest n (value_counts s) = firstn n (value_counts s).
Proof.
  unfold nlargest. f_equal. apply sort_id.
  apply sort_sorted, count_geb_total.
Qed.



Lemma topManufacturers_value_counts (df : DataFrame) :
  has_column df "manufacturer" = true ->
  topManufacturers df
  = Ok (firstn 10 (value_counts (map manufacturer (rows df)))).
Proof.
  intros Hc. unfold topManufacturers, most_listed_brands, getitem.
  rewrite Hc, andb_true_r.
  destruct (empty df) eqn:He; simpl.
  - unfold empty in He. apply has_column_In in Hc.
    destruct (columns df); [destruct Hc |]. simpl in He.
    destruct (rows df); [reflexivity | discriminate He].
  - now rewrite nlargest_value_counts.
Qed.




(** ** Models by Company: the rows behind the summaries *)

Lemma filter_andb {A : Type} (p q : A -> bool) (l : list A) :
  filter p (filter q l) = filter (fun x => q x && p x) l.
Proof.
  induction l as [| x l IH]; simpl; [reflexivity |].
  destruct (q x); simpl; [destruct (p x) |]; now rewrite IH.
Qed.

(** The mask of the search holds a NaN as soon as a model is no text. *)
Lemma as_mask_cases (f : string -> bool) (g : string -> string)
    (l : list Listing) :
  as_mask (map (option_map f)
             (map (fun c => match c with
                            | Some (Str name) => Some (g name)
                            | _ => None
                            end) (map model l)))
  = if forallb text_model l
    then Ok (map (fun r => match model r with
                           | Some (Str name) => f (g name)
                           | _ => false
                           end) l)
    else Raise (ValueError
                  "Cannot mask with non-boolean array containing NA / NaN values").
Proof.
  induction l as [| r l IH]; [reflexivity |].
  cbn [map forallb]. unfold text_model at 1.
  destruct (model r) as [[name | z] |]; cbn [option_map as_mask andb];
    try reflexivity.
  rewrite IH. destruct (forallb text_model l); reflexivity.
Qed.

Lemma empty_rows (df : DataFrame) (c : string) :
  has_column df c = true ->
  empty df = match rows df with [] => true | _ :: _ => false end.
Proof.
  intros Hc. apply has_column_In in Hc. unfold empty.
  destruct (columns df); [destruct Hc |]. simpl.
  now destruct (rows df).
Qed.

Lemma grouped_nil {lib : Library} : grouped [] = [].
Proof. reflexivity. Qed.

Lemma dropna_In {A : Type} (s : Series A) (v : A) :
  In v (dropna s) <-> In (Some v) s.
Proof.
  induction s as [| [w |] s IH]; simpl; [tauto | |].
  - rewrite IH. split; intros [H | H]; auto; left; congruence.
  - rewrite IH. split; [auto |]. intros [H | H]; [discriminate | assumption].
Qed.

Lemma dropna_filled {A : Type} (f : Listing -> option A) (l : list Listing) :
  Forall (fun r => isnull (f r) = false) l ->
  List.length (dropna (map f l)) = List.length l.
Proof.
  induction 1 as [| r l Hr Hl IH]; simpl; [reflexivity |].
  destruct (f r); [| discriminate Hr]. simpl. now rewrite IH.
Qed.

Lemma existsb_text_model (l : list Listing) :
  existsb is_text (dropna (map model l)) = existsb text_model l.
Proof.
  induction l as [| r l IH]; [reflexivity |].
  cbn [map existsb]. unfold text_model at 1.
  destruct (model r) as [c |]; cbn [dropna existsb]; rewrite IH; reflexivity.
Qed.

(** A text among the models of some rows of the frame makes the model
    column of the frame one of dtype object. *)
Lemma dtype_object_text (all sel : list Listing) :
  incl sel all -> existsb text_model sel = true ->
  dtype_object (map model all) = true.
Proof.
  intros Hincl Hex. unfold dtype_object.
  rewrite existsb_text_model. apply orb_true_iff. right.
  apply existsb_exists in Hex. destruct Hex as [r [Hr Ht]].
  apply existsb_exists. exists r. split; [apply Hincl, Hr | exact Ht].
Qed.

Lemma brand_rows_In (df : DataFrame) (brand : string) (r : Listing) :
  In r (brand_rows df brand)
  <-> In r (rows df) /\ manufacturer r = Some brand /\ model r <> None.
Proof.
  unfold brand_rows. rewrite filter_In, andb_true_iff, eq_scalar_iff.
  destruct (model r); simpl; intuition congruence.
Qed.

Lemma filtered_rows_brand_rows {lib : Library} (df : DataFrame)
    (brand text : string) :
  filtered_rows df brand text = filter (search_hit text) (brand_rows df brand).
Proof.
  unfold filtered_rows, brand_rows. now rewrite filter_andb.
Qed.

(** What the page evaluates to once its guard has passed: the rows of the
    manufacturer that have a model, the [.str] accessor, the pattern, the
    mask. *)
Lemma models_by_company_eval {lib : Library} (df : DataFrame)
    (brand text : string) :
  empty df = false ->
  issubset models_columns df = true ->
  models_by_company df brand text
  = match brand_rows df brand with
    | [] => Ok (Warning "No models found for this company.")
    | _ :: _ =>
        if lower text =? "" then Ok (Rendered (grouped (brand_rows df brand)))
        else if existsb text_model (brand_rows df brand) then
          match re_compile (lower text) with
          | Raise e => Raise e
          | Ok _ =>
              if forallb text_model (brand_rows df brand) then
                match filtered_rows df brand text with
                | [] => Ok (Warning "No matching models found.")
                | kept => Ok (Rendered (grouped kept))
                end
              else
                Raise (ValueError
                         "Cannot mask with non-boolean array containing NA / NaN values")
          end
        else
          Raise (AttributeError "Can only use .str accessor with string values!")
    end.
Proof.
  intros Hne Hsub.
  assert (Hman : has_column df "manufacturer" = true)
    by (apply (issubset_has_column models_columns); [assumption | simpl; tauto]).
  assert (Hmod : has_column df "model" = true)
    by (apply (issubset_has_column models_columns); [assumption | simpl; tauto]).
  rewrite filtered_rows_brand_rows.
  unfold models_by_company.
  rewrite Hsub, Hne. cbn [negb andb].
  unfold getitem at 1. rewrite Hman. cbn [bind].
  rewrite map_map.
  set (masked := getitem_mask df
                   (map (fun r => eq_scalar brand (manufacturer r)) (rows df))).
  assert (Hsub1 : issubset ["model"] masked = true).
  { unfold issubset. simpl forallb.
    replace (has_column masked "model") with true by (symmetry; exact Hmod).
    reflexivity. }
  rewrite (dropna_subset_present ["model"] masked Hsub1).
  set (brand_df := {| columns := columns masked; rows := filter _ (rows masked) |}).
  cbn [bind negb].
  assert (Hbrows : rows brand_df = brand_rows df brand).
  { unfold brand_df, masked, brand_rows. simpl. rewrite select_rows_map.
    rewrite filter_andb. apply filter_ext. intros r. simpl.
    now rewrite andb_true_r. }
  assert (Hbmod : has_column brand_df "model" = true) by exact Hmod.
  assert (Hnonnull : Forall (fun r => isnull (model r) = false) (rows brand_df)).
  { apply Forall_forall. intros r Hr. rewrite Hbrows in Hr.
    apply brand_rows_In in Hr. destruct Hr as [_ [_ Hr]].
    now destruct (model r). }
  assert (Hincl : incl (rows brand_df) (rows df)).
  { intros r Hr. rewrite Hbrows in Hr. now apply brand_rows_In in Hr. }
  rewrite <- Hbrows.
  clearbody brand_df. clear Hbrows Hsub1 masked.
  rewrite (empty_rows brand_df "model" Hbmod).
  destruct (rows brand_df) as [| r1 l1] eqn:Hb1; [reflexivity |].
  rewrite <- Hb1 in *. cbn [negb].
  assert (Hlen : (List.length (rows brand_df) =? 0)%nat = false)
    by (rewrite Hb1; reflexivity).
  clear Hb1 r1 l1.
  destruct (lower text =? "") eqn:Hempty; cbn [negb bind].
  - rewrite (empty_rows brand_df "model" Hbmod).
    destruct (rows brand_df); [discriminate Hlen | reflexivity].
  - unfold getitem. rewrite Hbmod. cbn [bind].
    unfold str_lower, has_str.
    rewrite (dropna_filled model _ Hnonnull), Hlen, existsb_text_model.
    cbn [orb].
    destruct (existsb text_model (rows brand_df)) eqn:Htext.
    + rewrite (dtype_object_text _ _ Hincl Htext). cbn [andb bind].
      unfold str_contains.
      destruct (re_compile (lower text)) as [re | e] eqn:Hre;
        cbn [bind]; [| reflexivity].
      rewrite (as_mask_cases (re_search re) lower (rows brand_df)).
      destruct (forallb text_model (rows brand_df)); cbn [bind];
        [| reflexivity].
      set (found := getitem_mask brand_df _).
      assert (Hfound : rows found = filter (search_hit text) (rows brand_df)).
      { unfold found. simpl. rewrite select_rows_map.
        apply filter_ext. intros r. unfold search_hit.
        rewrite Hempty, Hre. reflexivity. }
      assert (Hfmod : has_column found "model" = true) by exact Hbmod.
      rewrite (empty_rows found "model" Hfmod), Hfound.
      now destruct (filter (search_hit text) (rows brand_df)).
    + rewrite andb_false_r. reflexivity.
Qed.

(** When the guard of the page fails there is nothing to filter. *)
Lemma models_by_company_guard {lib : Library} (df : DataFrame)
    (brand text : string) :
  negb (empty df) && issubset models_columns df = false ->
  models_by_company df brand text
  = Ok (Warning "Required columns are missing from the dataset.").
Proof.
  intros Hg. unfold models_by_company. now rewrite Hg.
Qed.

(** ** [groupby('model')] *)

Lemma groupby_model_keys (l : list Listing) :
  map fst (groupby_model l) = sort cell_leb (unique (dropna (map model l))).
Proof.
  unfold groupby_model. rewrite map_map. simpl. apply map_id.
Qed.

Lemma groupby_model_key_In (l : list Listing) (k : scalar) :
  In k (map fst (groupby_model l)) <-> exists r, In r l /\ model r = Some k.
Proof.
  rewrite groupby_model_keys, sort_In, unique_In, dropna_In, in_map_iff.
  split; intros [r [H1 H2]]; exists r; auto.
Qed.

Lemma groupby_model_NoDup (l : list Listing) : NoDup (map fst (groupby_model l)).
Proof.
  rewrite groupby_model_keys.
  eapply Permutation_NoDup; [apply Permutation_sym, sort_perm |].
  apply unique_NoDup.
Qed.

Lemma groupby_model_In (l : list Listing) (k : scalar) (g : list Listing) :
  In (k, g) (groupby_model l) ->
  g = filter (fun r => eq_scalar k (model r)) l /\ g <> [].
Proof.
  intros Hin.
  assert (Hk : In k (map fst (groupby_model l))) by (apply (in_map fst) in Hin; exact Hin).
  unfold groupby_model in Hin. apply in_map_iff in Hin.
  destruct Hin as [k' [[= -> <-] _]].
  split; [reflexivity |].
  apply groupby_model_key_In in Hk. destruct Hk as [r [Hr Hm]].
  intros Hnil.
  assert (Hin : In r (filter (fun r0 => eq_scalar k (model r0)) l)).
  { apply filter_In. split; [assumption |]. now apply eq_scalar_iff. }
  rewrite Hnil in Hin. exact Hin.
Qed.

(** Keys in strictly ascending order. *)
Lemma sorted_NoDup_strict (l : list scalar) :
  StronglySorted (fun a b => scalar_leb a b = true) l -> NoDup l ->
  StronglySorted scalar_lt l.
Proof.
  induction 1 as [| a l Hs IH Hall]; intros Hnd; constructor.
  - apply IH. now inversion Hnd.
  - inversion Hnd as [| ? ? Hnotin _]; subst.
    rewrite Forall_forall in *. intros x Hx.
    apply scalar_leb_neq_lt; [now apply Hall |]. intros ->. contradiction.
Qed.

Lemma groupby_model_sorted (l : list Listing) :
  StronglySorted scalar_lt (map fst (groupby_model l)).
Proof.
  apply sorted_NoDup_strict; [| apply groupby_model_NoDup].
  rewrite groupby_model_keys.
  apply (sort_strongly_sorted (A := scalar));
    [apply cell_leb_total | apply cell_leb_trans].
Qed.

Lemma grouped_models {lib : Library} (l : list Listing) :
  map row_model (grouped l) = map fst (groupby_model l).
Proof.
  unfold grouped. rewrite map_map. reflexivity.
Qed.

(** Among texts the order of the summaries is the order of the names. *)
Lemma sorted_text_names (names : list string) :
  StronglySorted scalar_lt (map Str names) -> StronglySorted str_lt names.
Proof.
  induction names as [| a names IH]; intros Hs; constructor;
    inversion Hs as [| ? ? Hs' Hall]; subst.
  - now apply IH.
  - rewrite Forall_forall in *. intros x Hx.
    apply (Hall (Str x)). now apply in_map.
Qed.

(** A row falls into the group of its own model and into no other. *)
Lemma groups_cons (r : Listing) (l : list Listing) (keys : list scalar) :
  NoDup keys ->
  Permutation
    (List.concat (map (fun k => filter (fun r0 => eq_scalar k (model r0)) (r :: l)) keys))
    ((if existsb (fun k => eq_scalar k (model r)) keys then [r] else [])
     ++ List.concat (map (fun k => filter (fun r0 => eq_scalar k (model r0)) l) keys)).
Proof.
  induction 1 as [| k ks Hnotin Hnd IH]; [reflexivity |].
  cbn [map List.concat existsb filter].
  destruct (eq_scalar k (model r)) eqn:Hk; cbn [orb].
  - assert (Hnone : existsb (fun k0 => eq_scalar k0 (model r)) ks = false).
    { destruct (existsb (fun k0 => eq_scalar k0 (model r)) ks) eqn:He; [| reflexivity].
      exfalso. apply existsb_exists in He. destruct He as [k' [Hin Hk']].
      apply eq_scalar_iff in Hk. apply eq_scalar_iff in Hk'. congruence. }
    rewrite Hnone in IH. simpl in IH. simpl.
    apply perm_skip. now apply Permutation_app_head.
  - eapply perm_trans; [apply Permutation_app_head, IH |].
    destruct (existsb (fun k0 => eq_scalar k0 (model r)) ks); simpl.
    + apply Permutation_sym, Permutation_middle.
    + reflexivity.
Qed.

Lemma groups_partition (l : list Listing) (keys : list scalar) :
  NoDup keys ->
  (forall r, In r l -> exists k, In k keys /\ model r = Some k) ->
  Permutation
    (List.concat (map (fun k => filter (fun r0 => eq_scalar k (model r0)) l) keys)) l.
Proof.
  intros Hnd. induction l as [| r l IH]; intros Hcov.
  - simpl. clear Hnd Hcov.
    induction keys as [| k ks IHk]; simpl; [constructor | exact IHk].
  - eapply perm_trans; [apply groups_cons; assumption |].
    destruct (Hcov r (or_introl eq_refl)) as [k [Hk Hm]].
    assert (He : existsb (fun k0 => eq_scalar k0 (model r)) keys = true).
    { apply existsb_exists. exists k. split; [assumption |].
      now apply eq_scalar_iff. }
    rewrite He. simpl. apply perm_skip, IH.
    intros r' Hr'. apply Hcov. now right.
Qed.

Lemma groupby_model_partition (l : list Listing) :
  Forall (fun r => isnull (model r) = false) l ->
  Permutation (List.concat (map snd (groupby_model l))) l.
Proof.
  intros Hfilled.
  replace (map snd (groupby_model l))
    with (map (fun k => filter (fun r0 => eq_scalar k (model r0)) l)
              (map fst (groupby_model l))).
  - apply groups_partition; [apply groupby_model_NoDup |].
    intros r Hr. rewrite Forall_forall in Hfilled. specialize (Hfilled r Hr).
    destruct (model r) as [k |] eqn:Hm; [| discriminate].
    exists k. split; [| reflexivity].
    apply groupby_model_key_In. now exists r.
  - unfold groupby_model. rewrite !map_map. reflexivity.
Qed.

(** ** Substrings *)

Lemma prefix_iff (p s : string) :
  String.prefix p s = true <-> exists post, s = (p ++ post)%string.
Proof.
  revert s. induction p as [| a p IH]; intros s; simpl.
  - destruct s; (split; [intros _; eexists; reflexivity | reflexivity]).
  - destruct s as [| b s]; simpl.
    + split; [discriminate | intros [post H]; discriminate H].
    + destruct (ascii_dec a b) as [-> | Hne].
      * rewrite IH. split; intros [post H]; exists post; congruence.
      * split; [discriminate | intros [post H]; congruence].
Qed.

Lemma is_substringb_iff (sub s : string) :
  is_substringb sub s = true <-> is_substring sub s.
Proof.
  unfold is_substring. split.
  - induction s as [| c s IH]; cbn [is_substringb]; rewrite orb_true_iff.
    + intros [H | H]; [| discriminate]. apply prefix_iff in H.
      destruct H as [post H]. now exists EmptyString, post.
    + intros [H | H].
      * apply prefix_iff in H. destruct H as [post H]. now exists EmptyString, post.
      * destruct (IH H) as [pre [post ->]]. now exists (String c pre), post.
  - intros [pre [post ->]]. induction pre as [| c pre IH].
    + assert (H : String.prefix sub (sub ++ post) = true)
        by (apply prefix_iff; now exists post).
      cbn [String.append].
      destruct (sub ++ post)%string; cbn [is_substringb]; rewrite H; reflexivity.
    + cbn [String.append is_substringb]. rewrite IH. apply orb_true_r.
Qed.

(** ** Models by Company: the contracts *)

(** What the page returns, whatever the text typed: when it returns, the
    summaries of the filtered-and-searched rows. *)
Lemma modelsForManufacturer_cases {lib : Library} (df : DataFrame)
    (brand text : string) :
  match modelsForManufacturer df brand text with
  | Ok cards =>
      cards = grouped (filtered_rows df brand text)
      \/ (negb (empty df) && issubset models_columns df = false
          /\ cards = [])
  | Raise e =>
      empty df = false /\ issubset models_columns df = true
      /\ brand_rows df brand <> [] /\ lower text <> ""
      /\ models_by_company df brand text = Raise e
  end.
Proof.
  unfold modelsForManufacturer.
  destruct (negb (empty df) && issubset models_columns df) eqn:Hg.
  - apply andb_true_iff in Hg. destruct Hg as [Hne Hsub].
    apply negb_true_iff in Hne.
    rewrite (models_by_company_eval df brand text Hne Hsub).
    rewrite (filtered_rows_brand_rows df brand text).
    destruct (brand_rows df brand) as [| r0 l0] eqn:HR.
    { cbn. left. reflexivity. }
    rewrite <- HR.
    assert (HRne : brand_rows df brand <> []) by (rewrite HR; discriminate).
    clear HR r0 l0.
    destruct (lower text =? "") eqn:Hempty.
    { cbn [bind]. left. f_equal.
      erewrite filter_ext; [symmetry; apply filter_true |].
      intros r. unfold search_hit. now rewrite Hempty. }
    assert (Htext : lower text <> "") by (now apply String.eqb_neq).
    destruct (existsb text_model (brand_rows df brand));
      [| cbn [bind]; auto].
    destruct (re_compile (lower text)) as [re | e]; [| cbn [bind]; auto].
    destruct (forallb text_model (brand_rows df brand)); [| cbn [bind]; auto].
    destruct (filter (search_hit text) (brand_rows df brand));
      cbn [bind]; left; reflexivity.
  - rewrite (models_by_company_guard df brand text Hg). cbn [bind].
    right. split; reflexivity.
Qed.

(** C7.  The page hands the search text to [str.contains] without
    [regex=False], so the text is read as a regular expression and not as
    the substring the specification words.  In the loaded sample no model
    of ford contains the text [F.5], whatever the letter case, and the
    page still shows the summary of [f150]; no model contains the text
    [(] either, and the page raises [re.error] where the empty sequence is
    required. *)
Theorem search_text_is_a_pattern :
  matching_rows (fst (load_data (Ok Sample.vehicles))) "ford" "F.5" = []
  /\ (exists cards,
        modelsForManufacturer (fst (load_data (Ok Sample.vehicles))) "ford" "F.5"
        = Ok cards
        /\ map row_model cards = [Str "f150"])
  /\ matching_rows (fst (load_data (Ok Sample.vehicles))) "ford" "(" = []
  /\ exists msg,
       modelsForManufacturer (fst (load_data (Ok Sample.vehicles))) "ford" "("
       = Raise (ReError msg).
Proof.
  split; [reflexivity |]. split.
  - eexists. split; [vm_compute; reflexivity | reflexivity].
  - split; [reflexivity |]. eexists. vm_compute. reflexivity.
Qed.

(** Whatever the text typed, the summaries the page returns are those of
    the groups of exactly the rows that carry the chosen manufacturer
    (compared as stored), have a model and are hit by the search the page
    performs.  There is one group per model of those rows, no group is
    empty, the groups together hold each of those rows once, and no rows
    give no summary.  The page returns when no text is typed, and when the
    text compiles as a pattern and every model of the manufacturer is
    text. *)
Theorem modelsForManufacturer_partition {lib : Library} (df : DataFrame)
    (brand text : string) :
  issubset models_columns df = true ->
  (forall cards, modelsForManufacturer df brand text = Ok cards ->
     cards = map (fun kg => agg (fst kg) (snd kg))
                 (groupby_model (filtered_rows df brand text)))
  /\ (lower text = ""
      \/ (forallb text_model (brand_rows df brand) = true
          /\ exists re, re_compile (lower text) = Ok re) ->
      exists cards, modelsForManufacturer df brand text = Ok cards)
  /\ (forall r, In r (filtered_rows df brand text) <->
        In r (rows df) /\ manufacturer r = Some brand
        /\ model r <> None /\ search_hit text r = true)
  /\ NoDup (map fst (groupby_model (filtered_rows df brand text)))
  /\ (forall k g, In (k, g) (groupby_model (filtered_rows df brand text)) ->
        g <> []
        /\ forall r, In r g <->
             In r (filtered_rows df brand text) /\ model r = Some k)
  /\ Permutation
       (List.concat (map snd (groupby_model (filtered_rows df brand text))))
       (filtered_rows df brand text)
  /\ (filtered_rows df brand text = [] ->
      forall cards, modelsForManufacturer df brand text = Ok cards ->
                    cards = []).
Proof.
  intros Hsub.
  assert (Hres : forall cards, modelsForManufacturer df brand text = Ok cards ->
            cards = grouped (filtered_rows df brand text)).
  { intros cards Hc.
    pose proof (modelsForManufacturer_cases df brand text) as Hcases.
    rewrite Hc in Hcases. destruct Hcases as [-> | [Hg ->]]; [reflexivity |].
    rewrite Hsub, andb_true_r in Hg. apply negb_false_iff in Hg.
    assert (Hman : has_column df "manufacturer" = true)
      by (apply (issubset_has_column models_columns); [assumption | simpl; tauto]).
    rewrite (empty_rows df "manufacturer" Hman) in Hg.
    unfold filtered_rows. destruct (rows df); [reflexivity | discriminate Hg]. }
  assert (Hrows : forall r, In r (filtered_rows df brand text) <->
            In r (rows df) /\ manufacturer r = Some brand
            /\ model r <> None /\ search_hit text r = true).
  { intros r. unfold filtered_rows.
    rewrite filter_In, !andb_true_iff, eq_scalar_iff.
    destruct (model r); simpl; intuition congruence. }
  split; [exact Hres |]. split.
  { intros Hret.
    pose proof (modelsForManufacturer_cases df brand text) as Hcases.
    destruct (modelsForManufacturer df brand text) as [cards | e];
      [now exists cards |].
    exfalso. destruct Hcases as [Hne [_ [HR [Htext Hraise]]]].
    destruct Hret as [Hempty | [Hall [re Hre]]]; [contradiction |].
    rewrite (models_by_company_eval df brand text Hne Hsub) in Hraise.
    destruct (brand_rows df brand) as [| r0 l0] eqn:HRows; [congruence |].
    rewrite <- HRows in *.
    apply String.eqb_neq in Htext. rewrite Htext, Hre, Hall in Hraise.
    assert (Hex : existsb text_model (brand_rows df brand) = true).
    { rewrite HRows in *. cbn [forallb existsb] in *.
      apply andb_true_iff in Hall. destruct Hall as [-> _]. reflexivity. }
    rewrite Hex in Hraise.
    destruct (filtered_rows df brand text); discriminate Hraise. }
  split; [exact Hrows |].
  split; [apply groupby_model_NoDup |]. split.
  { intros k g Hin. apply groupby_model_In in Hin. destruct Hin as [-> Hne].
    split; [exact Hne |]. intros r. rewrite filter_In, eq_scalar_iff. tauto. }
  split.
  { apply groupby_model_partition. apply Forall_forall. intros r Hr.
    apply Hrows in Hr. destruct Hr as [_ [_ [Hm _]]].
    now destruct (model r). }
  intros Hnil cards Hc. rewrite (Hres cards Hc), Hnil. reflexivity.
Qed.

Lemma modelsForManufacturer_partition_witness :
  modelsForManufacturer (fst (load_data (Ok Sample.vehicles))) "ford" "F1"
  = Ok (map (fun kg => agg (fst kg) (snd kg))
            (groupby_model
               (filtered_rows (fst (load_data (Ok Sample.vehicles))) "ford" "F1")))
  /\ Permutation
       (List.concat
          (map snd
             (groupby_model
                (filtered_rows (fst (load_data (Ok Sample.vehicles))) "ford" "F1"))))
       (filtered_rows (fst (load_data (Ok Sample.vehicles))) "ford" "F1")
  /\ filtered_rows (fst (load_data (Ok Sample.vehicles))) "ford" "F1"
     = [Sample.f150_a; Sample.f150_b].
Proof.
  destruct (modelsForManufacturer_partition
              (fst (load_data (Ok Sample.vehicles))) "ford" "F1" eq_refl)
    as [Hres [Hret [_ [_ [_ [Hperm _]]]]]].
  split; [| split; [exact Hperm | reflexivity]].
  destruct Hret as [cards Hc].
  - right. split; [reflexivity |]. eexists. reflexivity.
  - rewrite Hc. f_equal. exact (Hres cards Hc).
Defined.

(** C9 (amended).  Whatever the text typed, the summaries the page returns
    stand in strictly ascending order of model, in the order in which pandas
    sorts the keys of a group-by: numbers by value, before texts by code
    point.  When all models shown are text this is the lexicographic order
    of their names.  The page raises only when a search text is given. *)
Theorem modelsForManufacturer_sorted {lib : Library} (df : DataFrame)
    (brand text : string) :
  match modelsForManufacturer df brand text with
  | Ok cards =>
      StronglySorted scalar_lt (map row_model cards)
      /\ forall names, map row_model cards = map Str names ->
                       StronglySorted str_lt names
  | Raise e => lower text <> ""
  end.
Proof.
  pose proof (modelsForManufacturer_cases df brand text) as Hcases.
  destruct (modelsForManufacturer df brand text) as [cards | e];
    [| tauto].
  assert (Hs : StronglySorted scalar_lt (map row_model cards)).
  { destruct Hcases as [-> | [_ ->]]; [| constructor].
    rewrite grouped_models. apply groupby_model_sorted. }
  split; [exact Hs |].
  intros names Hnames. apply sorted_text_names. now rewrite <- Hnames.
Qed.

Lemma modelsForManufacturer_sorted_witness :
  match modelsForManufacturer (fst (load_data (Ok Sample.vehicles))) "ford" "" with
  | Ok cards =>
      StronglySorted str_lt ["Focus"; "f150"]
      /\ map row_model cards = [Str "Focus"; Str "f150"]
  | Raise e => False
  end.
Proof.
  pose proof (modelsForManufacturer_sorted
                (fst (load_data (Ok Sample.vehicles))) "ford" "") as Hs.
  destruct (modelsForManufacturer (fst (load_data (Ok Sample.vehicles))) "ford" "")
    as [cards | e] eqn:Hc.
  - assert (Hm : map row_model cards = map Str ["Focus"; "f150"]).
    { vm_compute in Hc. injection Hc as <-. reflexivity. }
    split; [exact (proj2 Hs _ Hm) | exact Hm].
  - apply Hs. reflexivity.
Defined.

(** C9, as stated, fails: a file whose models are 9 and 10 is read with a
    numeric model column, and the page shows 9 before 10, while the name
    [10] comes before the name [9] in lexicographic order.  With a search
    text the same frame has no [.str] accessor and the page raises. *)
Lemma models_read_as_numbers :
  (exists cards,
     modelsForManufacturer (fst (load_data (Ok Sample.numbers))) "X" ""
     = Ok cards
     /\ map (fun card => model_name (row_model card)) cards = ["9"; "10"])
  /\ str_lt "10" "9"
  /\ ~ StronglySorted str_lt ["9"; "10"]
  /\ exists msg,
       modelsForManufacturer (fst (load_data (Ok Sample.numbers))) "X" "1"
       = Raise (AttributeError msg).
Proof.
  split; [eexists; split; [vm_compute; reflexivity | reflexivity] |].
  split; [reflexivity |]. split.
  - intros Hs. inversion Hs as [| ? ? _ Hall]; subst.
    inversion Hall as [| ? ? Hlt _]; subst. discriminate Hlt.
  - eexists. vm_compute. reflexivity.
Qed.

(** ** Mean, median and the integer shown for the year *)

















(** ** Brand-Specific Heatmap *)

Lemma filled_values {A : Type} (f : Listing -> option A) (l : list Listing) :
  Forall (fun r => f r <> None) l ->
  map f l = map Some (dropna (map f l)).
Proof.
  induction 1 as [| r l Hr Hl IH]; simpl; [reflexivity |].
  destruct (f r); [| congruence]. simpl. now rewrite <- IH.
Qed.

Lemma mean_filled {lib : Library} (x : Series float) :
  dropna x <> [] -> mean x = Some (nanmean (dropna x)).
Proof.
  intros Hne. unfold mean. destruct (dropna x); [contradiction | reflexivity].
Qed.

(** C6.  For a manufacturer with at least one listing in the loaded frame,
    every listing of it has a latitude and a longitude; the centre of the map
    is the pair of the mean of those latitudes and of the mean of those
    longitudes as numpy computes them, each an arithmetic mean in float64 (a
    float64 sum of the values divided by their number); and the heat data
    are the (lat, long) pairs of those listings, one per listing, in frame
    order. *)
Theorem brand_heatmap_center {lib : Library} (read_csv : result DataFrame)
    (brand : string) :
  filter (fun r => eq_scalar brand (manufacturer r))
         (rows (fst (load_data read_csv))) <> [] ->
  exists lats longs,
    map lat (filter (fun r => eq_scalar brand (manufacturer r))
                    (rows (fst (load_data read_csv)))) = map Some lats
    /\ map long (filter (fun r => eq_scalar brand (manufacturer r))
                        (rows (fst (load_data read_csv)))) = map Some longs
    /\ is_mean lats (nanmean lats)
    /\ is_mean longs (nanmean longs)
    /\ brand_heatmap (fst (load_data read_csv)) brand
       = Ok (Rendered
               {| location := (Some (nanmean lats), Some (nanmean longs));
                  heat_data :=
                    map (fun row => (lat row, long row))
                        (filter (fun r => eq_scalar brand (manufacturer r))
                                (rows (fst (load_data read_csv)))) |}).
Proof.
  intros Hne.
  remember (fst (load_data read_csv)) as df eqn:Hdf.
  remember (filter (fun r => eq_scalar brand (manufacturer r)) (rows df))
    as sel eqn:Hsel.
  assert (Hfilled : Forall required_filled sel).
  { apply Forall_forall. intros r Hr. rewrite Hsel in Hr.
    apply filter_In in Hr.
    apply (proj1 (Forall_forall _ _) (load_data_filled read_csv)).
    rewrite <- Hdf. tauto. }
  assert (Hcols : issubset required df = true).
  { destruct (load_data_cases read_csv) as [[df0 [_ [Hsub Hl]]] | [e Hl]].
    - rewrite Hdf, Hl. exact Hsub.
    - exfalso. apply Hne. rewrite Hsel, Hdf, Hl. reflexivity. }
  assert (Hman : has_column df "manufacturer" = true)
    by (apply (issubset_has_column required); [assumption | simpl; tauto]).
  assert (Hlat : has_column df "lat" = true)
    by (apply (issubset_has_column required); [assumption | simpl; tauto]).
  assert (Hlong : has_column df "long" = true)
    by (apply (issubset_has_column required); [assumption | simpl; tauto]).
  assert (Hlats : map lat sel = map Some (dropna (map lat sel))).
  { apply filled_values. eapply Forall_impl; [| exact Hfilled].
    intros r Hr. apply Hr. }
  assert (Hlongs : map long sel = map Some (dropna (map long sel))).
  { apply filled_values. eapply Forall_impl; [| exact Hfilled].
    intros r Hr. apply Hr. }
  assert (Hsome : forall (f : Listing -> option float),
             map f sel = map Some (dropna (map f sel)) -> dropna (map f sel) <> []).
  { intros f Hf Hnil. rewrite Hnil in Hf. apply map_eq_nil in Hf. contradiction. }
  exists (dropna (map lat sel)), (dropna (map long sel)).
  repeat (split; [assumption |]).
  split; [apply nanmean_mean, (Hsome lat Hlats) |].
  split; [apply nanmean_mean, (Hsome long Hlongs) |].
  assert (Hr1 : exists r1, In r1 sel).
  { destruct sel as [| r1 l1]; [congruence |]. exists r1. now left. }
  destruct Hr1 as [r1 Hr1].
  assert (Hr1df : In r1 (rows df)).
  { rewrite Hsel in Hr1. apply filter_In in Hr1. tauto. }
  unfold brand_heatmap.
  rewrite (empty_false df "manufacturer" r1 Hman Hr1df).
  unfold issubset. cbn [forallb]. rewrite Hman, Hlat, Hlong. cbn [negb andb].
  unfold getitem at 1. rewrite Hman. cbn [bind]. rewrite map_map.
  set (brand_df := getitem_mask df _).
  assert (Hb : rows brand_df = sel).
  { unfold brand_df. simpl. rewrite Hsel. apply select_rows_map. }
  assert (Hbman : has_column brand_df "manufacturer" = true) by exact Hman.
  assert (Hblat : has_column brand_df "lat" = true) by exact Hlat.
  assert (Hblong : has_column brand_df "long" = true) by exact Hlong.
  assert (Hr1b : In r1 (rows brand_df)) by (rewrite Hb; exact Hr1).
  rewrite (empty_false brand_df "manufacturer" r1 Hbman Hr1b). cbn [negb].
  unfold getitem. rewrite Hblat, Hblong. cbn [bind]. rewrite Hb.
  rewrite (mean_filled _ (Hsome lat Hlats)), (mean_filled _ (Hsome long Hlongs)).
  reflexivity.
Qed.

(** The example of the specification: points (10, 20) and (30, 40) give the
    centre (20, 30) and both points. *)
Lemma brand_heatmap_center_witness :
  (exists lats longs,
     map lat (filter (fun r => eq_scalar "X" (manufacturer r))
                     (rows (fst (load_data (Ok Sample.two_points))))) = map Some lats
     /\ map long (filter (fun r => eq_scalar "X" (manufacturer r))
                         (rows (fst (load_data (Ok Sample.two_points))))) = map Some longs
     /\ is_mean lats (nanmean lats)
     /\ is_mean longs (nanmean longs)
     /\ brand_heatmap (fst (load_data (Ok Sample.two_points))) "X"
        = Ok (Rendered
                {| location := (Some (nanmean lats), Some (nanmean longs));
                   heat_data :=
                     map (fun row => (lat row, long row))
                         (filter (fun r => eq_scalar "X" (manufacturer r))
                                 (rows (fst (load_data (Ok Sample.two_points))))) |}))
  /\ brand_heatmap (fst (load_data (Ok Sample.two_points))) "X"
     = Ok (Rendered
             {| location := (Some 20%float, Some 30%float);
                heat_data := [(Some 10%float, Some 20%float);
                              (Some 30%float, Some 40%float)] |}).
Proof.
  split.
  - apply (brand_heatmap_center (Ok Sample.two_points) "X").
    simpl. discriminate.
  - vm_compute. reflexivity.
Defined.
(** ** Home *)

(** With both columns present the three metrics are the number of rows and
    the numbers of distinct non-null manufacturers and models. *)
Lemma home_counts (df : DataFrame) :
  has_column df "manufacturer" = true ->
  has_column df "model" = true ->
  exists m,
    home df = Ok m
    /\ total_listings m = List.length (rows df)
    /\ (forall l, distinct_values (dropna (map manufacturer (rows df))) l ->
          unique_brands m = List.length l)
    /\ (forall l, distinct_values (dropna (map model (rows df))) l ->
          unique_models m = List.length l).
Proof.
  intros Hman Hmod. unfold home, getitem. rewrite Hman, Hmod. simpl.
  eexists. split; [reflexivity |]. simpl. split; [reflexivity |].
  split; intros l Hl; unfold nunique;
    eapply distinct_values_length; eauto using unique_distinct_values.
Qed.

(** C1.  After a failed load the frame is [pd.DataFrame()], which has no
    column: the Home page then raises [KeyError: 'manufacturer'] where the
    claim promises three zero counts.  (The other five pages test
    [df.empty] first.) *)
Theorem home_after_failed_load_raises (e : exn) :
  home (fst (load_data (Raise e))) = Raise (KeyError "manufacturer").
Proof. reflexivity. Qed.

Lemma home_counts_witness :
  exists m,
    home Sample.vehicles = Ok m
    /\ total_listings m = List.length (rows Sample.vehicles)
    /\ (forall l, distinct_values (dropna (map manufacturer (rows Sample.vehicles))) l ->
          unique_brands m = List.length l)
    /\ (forall l, distinct_values (dropna (map model (rows Sample.vehicles))) l ->
          unique_models m = List.length l).
Proof.
  apply (home_counts Sample.vehicles); reflexivity.
Defined.

(** ** The loader when the file is sound *)

Lemma load_data_success_facts (df : DataFrame) :
  issubset required df = true ->
  snd (load_data (Ok df)) = []
  /\ columns (fst (load_data (Ok df))) = columns df
  /\ exists keep,
       rows (fst (load_data (Ok df))) = filter keep (rows df)
       /\ forall r, keep r = true <-> required_filled r.
Proof.
  intros Hsub. rewrite (load_data_read_ok df Hsub). simpl.
  split; [reflexivity |]. split; [reflexivity |].
  eexists. split; [reflexivity |]. intros r. apply required_filled_iff.
Qed.

(** A file that has the nine required columns loads without a message; the
    frame keeps the columns of the file and exactly its rows whose nine
    required fields are filled, in file order. *)
Theorem load_data_success (df : DataFrame) :
  issubset required df = true ->
  snd (load_data (Ok df)) = []
  /\ columns (fst (load_data (Ok df))) = columns df
  /\ exists keep,
       rows (fst (load_data (Ok df))) = filter keep (rows df)
       /\ forall r, keep r = true <-> required_filled r.
Proof. exact (load_data_success_facts df). Qed.

Lemma load_data_success_witness :
  (snd (load_data (Ok Sample.vehicles)) = []
   /\ columns (fst (load_data (Ok Sample.vehicles))) = columns Sample.vehicles
   /\ exists keep,
        rows (fst (load_data (Ok Sample.vehicles)))
        = filter keep (rows Sample.vehicles)
        /\ forall r, keep r = true <-> required_filled r)
  /\ rows (fst (load_data (Ok Sample.vehicles)))
     = [Sample.f150_a; Sample.f150_b; Sample.focus; Sample.x5].
Proof.
  split; [| reflexivity].
  apply (load_data_success Sample.vehicles). reflexivity.
Defined.

Lemma unique_length_le {A : Type} `{Cell A} (l : list A) :
  (List.length (unique l) <= List.length l)%nat.
Proof.
  induction l as [| x l IH]; simpl; [lia |].
  pose proof (filter_length_le (fun y => negb (cell_eqb y x)) (unique l)). lia.
Qed.

Lemma dropna_filled_length {A : Type} (f : Listing -> option A) (l : list Listing) :
  Forall (fun r => f r <> None) l ->
  List.length (dropna (map f l)) = List.length l.
Proof.
  induction 1 as [| r l Hr Hl IH]; simpl; [reflexivity |].
  destruct (f r); [| congruence]. simpl. now rewrite IH.
Qed.

Lemma nunique_bounds {A : Type} `{Cell A} (f : Listing -> option A)
    (l : list Listing) :
  Forall (fun r => f r <> None) l ->
  (nunique (map f l) <= List.length l)%nat
  /\ ((0 < List.length l)%nat -> (0 < nunique (map f l))%nat).
Proof.
  intros Hf. unfold nunique. pose proof (dropna_filled_length f l Hf) as Hlen.
  split.
  - rewrite <- Hlen. apply unique_length_le.
  - intros Hpos. destruct (dropna (map f l)) as [| v vs]; simpl in *; lia.
Qed.

(** After a sound file is loaded the Home page does not raise: it shows the
    number of rows kept, and the two distinct counts are at most that
    number and at least one as soon as one row is kept.  A sound file
    without any row gives three zeros. *)
Theorem home_after_load (df : DataFrame) :
  issubset required df = true ->
  exists m,
    home (fst (load_data (Ok df))) = Ok m
    /\ total_listings m = List.length (rows (fst (load_data (Ok df))))
    /\ (unique_brands m <= total_listings m)%nat
    /\ (unique_models m <= total_listings m)%nat
    /\ ((0 < total_listings m)%nat ->
        (0 < unique_brands m)%nat /\ (0 < unique_models m)%nat).
Proof.
  intros Hsub.
  pose proof (load_data_filled (Ok df)) as Hfilled.
  destruct (load_data_success_facts df Hsub) as [_ [Hcols _]].
  set (loaded := fst (load_data (Ok df))) in *.
  assert (Hman : has_column loaded "manufacturer" = true).
  { unfold has_column. rewrite Hcols.
    apply (issubset_has_column required df); [assumption | simpl; tauto]. }
  assert (Hmod : has_column loaded "model" = true).
  { unfold has_column. rewrite Hcols.
    apply (issubset_has_column required df); [assumption | simpl; tauto]. }
  unfold home, getitem. rewrite Hman, Hmod. cbn [bind].
  eexists. split; [reflexivity |]. cbn [total_listings unique_brands unique_models].
  assert (H1 : Forall (fun r => manufacturer r <> None) (rows loaded))
    by (eapply Forall_impl; [| exact Hfilled]; intros r Hr; apply Hr).
  assert (H2 : Forall (fun r => model r <> None) (rows loaded))
    by (eapply Forall_impl; [| exact Hfilled]; intros r Hr; apply Hr).
  destruct (nunique_bounds manufacturer (rows loaded) H1) as [Ha Hb].
  destruct (nunique_bounds model (rows loaded) H2) as [Hc Hd].
  unfold len. repeat split; auto.
Qed.

Lemma home_after_load_witness :
  (exists m,
     home (fst (load_data (Ok Sample.vehicles))) = Ok m
     /\ total_listings m = List.length (rows (fst (load_data (Ok Sample.vehicles))))
     /\ (unique_brands m <= total_listings m)%nat
     /\ (unique_models m <= total_listings m)%nat
     /\ ((0 < total_listings m)%nat ->
         (0 < unique_brands m)%nat /\ (0 < unique_models m)%nat))
  /\ home (fst (load_data (Ok Sample.vehicles)))
     = Ok {| total_listings := 4; unique_brands := 2; unique_models := 3 |}
  /\ home (fst (load_data (Ok {| columns := Sample.all_columns; rows := [] |})))
     = Ok {| total_listings := 0; unique_brands := 0; unique_models := 0 |}.
Proof.
  split; [| split; reflexivity].
  apply (home_after_load Sample.vehicles). reflexivity.
Defined.

(** ** The manufacturer select boxes *)

Lemma sorted_NoDup_names (l : list string) :
  StronglySorted (fun a b => str_leb a b = true) l -> NoDup l ->
  StronglySorted str_lt l.
Proof.
  induction 1 as [| a l Hs IH Hall]; intros Hnd; constructor.
  - apply IH. now inversion Hnd.
  - inversion Hnd as [| ? ? Hnotin _]; subst.
    rewrite Forall_forall in *. intros x Hx.
    apply str_leb_neq_lt; [now apply Hall |]. intros ->. contradiction.
Qed.

Lemma brand_options_spec_facts (df : DataFrame) :
  has_column df "manufacturer" = true ->
  exists opts,
    brand_options df = Ok opts
    /\ StronglySorted str_lt opts
    /\ (forall b, In b opts <-> exists r, In r (rows df) /\ manufacturer r = Some b)
    /\ (forall m, home df = Ok m -> unique_brands m = List.length opts).
Proof.
  intros Hman. unfold brand_options, getitem. rewrite Hman. cbn [bind].
  eexists. split; [reflexivity |]. split; [| split].
  - apply sorted_NoDup_names.
    + apply sort_strongly_sorted; [apply str_leb_total | apply str_leb_trans].
    + eapply Permutation_NoDup; [apply Permutation_sym, sort_perm |].
      apply unique_NoDup.
  - intros b. rewrite sort_In, unique_In, dropna_In, in_map_iff.
    split; intros [r [H1 H2]]; exists r; auto.
  - intros m. unfold home, getitem. rewrite Hman. cbn [bind].
    destruct (has_column df "model"); cbn [bind]; [| discriminate].
    intros H. inversion H; subst m. cbn [unique_brands].
    rewrite sort_length. reflexivity.
Qed.

(** The options offered are the manufacturers occurring in the frame, each
    once, in strictly ascending order; there are as many as the Home page
    counts brands. *)
Theorem brand_options_spec (df : DataFrame) :
  has_column df "manufacturer" = true ->
  exists opts,
    brand_options df = Ok opts
    /\ StronglySorted str_lt opts
    /\ (forall b, In b opts <-> exists r, In r (rows df) /\ manufacturer r = Some b)
    /\ (forall m, home df = Ok m -> unique_brands m = List.length opts).
Proof. exact (brand_options_spec_facts df). Qed.

Lemma brand_options_spec_witness :
  (exists opts,
     brand_options Sample.vehicles = Ok opts
     /\ StronglySorted str_lt opts
     /\ (forall b, In b opts <->
           exists r, In r (rows Sample.vehicles) /\ manufacturer r = Some b)
     /\ (forall m, home Sample.vehicles = Ok m ->
           unique_brands m = List.length opts))
  /\ brand_options Sample.vehicles = Ok ["bmw"; "ford"].
Proof.
  split; [| reflexivity].
  apply (brand_options_spec Sample.vehicles). reflexivity.
Defined.

(** ** Models by Company: which of its four outcomes *)

(** ** Models by Company: which of its outcomes *)

Lemma filtered_rows_no_text {lib : Library} (df : DataFrame)
    (brand text : string) :
  (lower text =? "") = true ->
  filtered_rows df brand text = brand_rows df brand.
Proof.
  intros Hempty. rewrite filtered_rows_brand_rows.
  erewrite filter_ext; [apply filter_true |].
  intros r. unfold search_hit. now rewrite Hempty.
Qed.

Lemma filtered_rows_nil {lib : Library} (df : DataFrame)
    (brand text : string) :
  brand_rows df brand = [] -> filtered_rows df brand text = [].
Proof.
  intros Hnil. now rewrite filtered_rows_brand_rows, Hnil.
Qed.

Lemma forallb_existsb {A : Type} (p : A -> bool) (l : list A) :
  l <> [] -> forallb p l = true -> existsb p l = true.
Proof.
  destruct l as [| x l]; [congruence |]. intros _. cbn [forallb existsb].
  intros Hall. apply andb_true_iff in Hall. destruct Hall as [-> _].
  reflexivity.
Qed.

(** Rows give summaries: the summaries of a non-empty list of rows that
    have a model are not empty. *)
Lemma grouped_nonempty {lib : Library} (l : list Listing) :
  Forall (fun r => isnull (model r) = false) l -> l <> [] -> grouped l <> [].
Proof.
  intros Hfilled Hne Hnil.
  destruct l as [| r l]; [congruence |].
  inversion Hfilled as [| ? ? Hr _]; subst.
  destruct (model r) as [name |] eqn:Hm; [| discriminate Hr].
  assert (Hk : In name (map fst (groupby_model (r :: l)))).
  { apply groupby_model_key_In. exists r. split; [now left | assumption]. }
  rewrite <- grouped_models, Hnil in Hk. exact Hk.
Qed.

Lemma filtered_rows_filled {lib : Library} (df : DataFrame)
    (brand text : string) :
  Forall (fun r => isnull (model r) = false) (filtered_rows df brand text).
Proof.
  apply Forall_forall. intros r Hr. unfold filtered_rows in Hr.
  apply filter_In in Hr. destruct Hr as [_ Hr].
  apply andb_true_iff in Hr. destruct Hr as [Hr _].
  apply andb_true_iff in Hr. destruct Hr as [_ Hr].
  now apply negb_true_iff in Hr.
Qed.

(** Settles one case of the outcome of the page. *)
Ltac outcome :=
  repeat first [split | intro];
  repeat match goal with
         | H : _ /\ _ |- _ => destruct H
         | H : exists _, _ |- _ => destruct H
         | H : _ \/ _ |- _ => destruct H
         | H : Ok _ = Ok _ |- _ => injection H as H
         | H : Rendered _ = Rendered _ |- _ => injection H as H
         | H : Raise _ = Raise _ |- _ => injection H as H
         end;
  subst; try congruence; try tauto; eauto 10.

Lemma models_by_company_outcome_facts {lib : Library} (df : DataFrame)
    (brand text : string) :
  (models_by_company df brand text
   = Ok (Warning "Required columns are missing from the dataset.")
   <-> negb (empty df) && issubset models_columns df = false)
  /\ (models_by_company df brand text
      = Ok (Warning "No models found for this company.")
      <-> negb (empty df) && issubset models_columns df = true
          /\ brand_rows df brand = [])
  /\ (models_by_company df brand text
      = Ok (Warning "No matching models found.")
      <-> negb (empty df) && issubset models_columns df = true
          /\ brand_rows df brand <> []
          /\ lower text <> ""
          /\ forallb text_model (brand_rows df brand) = true
          /\ (exists re, re_compile (lower text) = Ok re)
          /\ filtered_rows df brand text = [])
  /\ (forall cards,
        models_by_company df brand text = Ok (Rendered cards)
        <-> negb (empty df) && issubset models_columns df = true
            /\ filtered_rows df brand text <> []
            /\ cards = grouped (filtered_rows df brand text)
            /\ (lower text = ""
                \/ (forallb text_model (brand_rows df brand) = true
                    /\ exists re, re_compile (lower text) = Ok re)))
  /\ (forall cards,
        models_by_company df brand text = Ok (Rendered cards) -> cards <> [])
  /\ (forall e,
        models_by_company df brand text = Raise e
        <-> negb (empty df) && issubset models_columns df = true
            /\ brand_rows df brand <> []
            /\ lower text <> ""
            /\ ((existsb text_model (brand_rows df brand) = false
                 /\ e = AttributeError
                          "Can only use .str accessor with string values!")
                \/ (existsb text_model (brand_rows df brand) = true
                    /\ re_compile (lower text) = Raise e)
                \/ (existsb text_model (brand_rows df brand) = true
                    /\ forallb text_model (brand_rows df brand) = false
                    /\ (exists re, re_compile (lower text) = Ok re)
                    /\ e = ValueError
                             "Cannot mask with non-boolean array containing NA / NaN values"))).
Proof.
  destruct (negb (empty df) && issubset models_columns df) eqn:Hg.
  2:{ rewrite (models_by_company_guard df brand text Hg). outcome. }
  pose proof Hg as Hg'.
  apply andb_true_iff in Hg'. destruct Hg' as [Hne Hsub].
  apply negb_true_iff in Hne.
  rewrite (models_by_company_eval df brand text Hne Hsub).
  pose proof (filtered_rows_filled df brand text) as Hfilled.
  destruct (brand_rows df brand) as [| r0 l0] eqn:HR.
  { pose proof (filtered_rows_nil df brand text HR) as Hnil. outcome. }
  rewrite <- HR in *.
  assert (HRne : brand_rows df brand <> []) by (rewrite HR; discriminate).
  clear HR r0 l0.
  destruct (lower text =? "") eqn:Hempty.
  { pose proof (filtered_rows_no_text df brand text Hempty) as Hsame.
    apply String.eqb_eq in Hempty.
    assert (Hfne : filtered_rows df brand text <> []) by (now rewrite Hsame).
    assert (Hgne : grouped (filtered_rows df brand text) <> [])
      by (now apply grouped_nonempty).
    rewrite <- Hsame. outcome. }
  apply String.eqb_neq in Hempty.
  destruct (existsb text_model (brand_rows df brand)) eqn:Hex.
  2:{ assert (Hall : forallb text_model (brand_rows df brand) = false).
      { destruct (forallb text_model (brand_rows df brand)) eqn:Hall;
          [| reflexivity].
        rewrite (forallb_existsb _ _ HRne Hall) in Hex. discriminate Hex. }
      outcome. }
  destruct (re_compile (lower text)) as [re | e0] eqn:Hre; [| outcome].
  destruct (forallb text_model (brand_rows df brand)) eqn:Hall; [| outcome].
  destruct (filtered_rows df brand text) as [| f1 fl] eqn:Hf; [outcome |].
  assert (Hgne : grouped (f1 :: fl) <> [])
    by (apply grouped_nonempty; [exact Hfilled | discriminate]).
  outcome.
Qed.

(** Whatever the text typed, the page ends in exactly one of these ways,
    each under its own condition.  The missing-columns warning: the frame
    is empty or lacks one of the nine columns of the page.  The no-models
    warning: the chosen manufacturer has no row with a model.  The no-match
    warning: a search text is given, it compiles as a pattern, every model
    of the manufacturer is text, and the search keeps no row.  Summaries,
    at least one: the search keeps a row, and no text is given or the text
    compiles and every model is text.  An exception, when a search text is
    given: [AttributeError] when no model of the manufacturer is text, the
    exception of [re.compile] when the text is no pattern, [ValueError]
    when the manufacturer has numbers among text models. *)
Theorem models_by_company_outcome {lib : Library} (df : DataFrame)
    (brand text : string) :
  (models_by_company df brand text
   = Ok (Warning "Required columns are missing from the dataset.")
   <-> negb (empty df) && issubset models_columns df = false)
  /\ (models_by_company df brand text
      = Ok (Warning "No models found for this company.")
      <-> negb (empty df) && issubset models_columns df = true
          /\ brand_rows df brand = [])
  /\ (models_by_company df brand text
      = Ok (Warning "No matching models found.")
      <-> negb (empty df) && issubset models_columns df = true
          /\ brand_rows df brand <> []
          /\ lower text <> ""
          /\ forallb text_model (brand_rows df brand) = true
          /\ (exists re, re_compile (lower text) = Ok re)
          /\ filtered_rows df brand text = [])
  /\ (forall cards,
        models_by_company df brand text = Ok (Rendered cards)
        <-> negb (empty df) && issubset models_columns df = true
            /\ filtered_rows df brand text <> []
            /\ cards = grouped (filtered_rows df brand text)
            /\ (lower text = ""
                \/ (forallb text_model (brand_rows df brand) = true
                    /\ exists re, re_compile (lower text) = Ok re)))
  /\ (forall cards,
        models_by_company df brand text = Ok (Rendered cards) -> cards <> [])
  /\ (forall e,
        models_by_company df brand text = Raise e
        <-> negb (empty df) && issubset models_columns df = true
            /\ brand_rows df brand <> []
            /\ lower text <> ""
            /\ ((existsb text_model (brand_rows df brand) = false
                 /\ e = AttributeError
                          "Can only use .str accessor with string values!")
                \/ (existsb text_model (brand_rows df brand) = true
                    /\ re_compile (lower text) = Raise e)
                \/ (existsb text_model (brand_rows df brand) = true
                    /\ forallb text_model (brand_rows df brand) = false
                    /\ (exists re, re_compile (lower text) = Ok re)
                    /\ e = ValueError
                             "Cannot mask with non-boolean array containing NA / NaN values"))).
Proof. exact (models_by_company_outcome_facts df brand text). Qed.

Lemma models_by_company_outcome_witness :
  models_by_company (fst (load_data (Ok Sample.vehicles))) "ford" "zz"
  = Ok (Warning "No matching models found.")
  /\ models_by_company (fst (load_data (Ok Sample.vehicles))) "kia" ""
     = Ok (Warning "No models found for this company.")
  /\ models_by_company (fst (load_data (Ok Sample.vehicles_no_price))) "ford" ""
     = Ok (Warning "Required columns are missing from the dataset.")
  /\ models_by_company (fst (load_data (Ok Sample.numbers))) "X" "1"
     = Raise (AttributeError "Can only use .str accessor with string values!").
Proof.
  split; [| split; [| split]].
  - apply (models_by_company_outcome
             (fst (load_data (Ok Sample.vehicles))) "ford" "zz").
    repeat split; try reflexivity; try discriminate.
    eexists. reflexivity.
  - apply (models_by_company_outcome
             (fst (load_data (Ok Sample.vehicles))) "kia" "").
    split; reflexivity.
  - apply (models_by_company_outcome
             (fst (load_data (Ok Sample.vehicles_no_price))) "ford" "").
    reflexivity.
  - apply (models_by_company_outcome
             (fst (load_data (Ok Sample.numbers))) "X" "1").
    repeat split; try reflexivity; try discriminate.
    left. split; reflexivity.
Defined.

(** The page raises only when a search text is given, and then nothing but
    the [AttributeError] of a model column without text, the [ValueError] of
    a mask with NaN, or what [re.compile] raises on the text: its guard
    names every column it reads, so no [KeyError] comes from the frame. *)
Theorem models_by_company_exceptions {lib : Library} (df : DataFrame)
    (brand text : string) (e : exn) :
  models_by_company df brand text = Raise e ->
  lower text <> ""
  /\ (e = AttributeError "Can only use .str accessor with string values!"
      \/ e = ValueError
               "Cannot mask with non-boolean array containing NA / NaN values"
      \/ re_compile (lower text) = Raise e).
Proof.
  intros Hraise.
  apply (proj2 (proj2 (proj2 (proj2 (proj2
           (models_by_company_outcome_facts df brand text))))) e) in Hraise.
  destruct Hraise as [_ [_ [Htext Hcause]]]. split; [exact Htext |].
  destruct Hcause as [[_ ->] | [[_ Hre] | [_ [_ [_ ->]]]]]; auto.
Qed.

Lemma models_by_company_exceptions_witness :
  models_by_company (fst (load_data (Ok Sample.vehicles))) "ford" "("
  = Raise (ReError "missing ), unterminated subpattern")
  /\ lower "(" <> ""
  /\ (ReError "missing ), unterminated subpattern"
      = AttributeError "Can only use .str accessor with string values!"
      \/ ReError "missing ), unterminated subpattern"
         = ValueError
             "Cannot mask with non-boolean array containing NA / NaN values"
      \/ re_compile (lower "(")
         = Raise (ReError "missing ), unterminated subpattern")).
Proof.
  split; [reflexivity |].
  apply (models_by_company_exceptions
           (fst (load_data (Ok Sample.vehicles))) "ford" "(").
  reflexivity.
Defined.

(** On a loaded frame that has the columns of the page, choosing any
    manufacturer the select box offers and typing no search text always
    shows summaries, at least one, each for a model of that manufacturer:
    neither warning can appear. *)
Theorem models_by_company_offered_brand {lib : Library} (df : DataFrame)
    (brand : string) (opts : list string) :
  issubset required df = true ->
  issubset models_columns df = true ->
  brand_options (fst (load_data (Ok df))) = Ok opts ->
  In brand opts ->
  exists cards,
    models_by_company (fst (load_data (Ok df))) brand "" = Ok (Rendered cards)
    /\ cards <> []
    /\ forall card, In card cards ->
          exists r, In r (rows (fst (load_data (Ok df))))
                    /\ manufacturer r = Some brand
                    /\ model r = Some (row_model card).
Proof.
  intros Hreq Hsub Hopts Hin.
  pose proof (load_data_filled (Ok df)) as Hfilled.
  destruct (load_data_success_facts df Hreq) as [_ [Hcols _]].
  set (loaded := fst (load_data (Ok df))) in *.
  assert (Hsub' : issubset models_columns loaded = true).
  { unfold issubset, has_column in *. now rewrite Hcols. }
  assert (Hman : has_column loaded "manufacturer" = true)
    by (apply (issubset_has_column models_columns); [assumption | simpl; tauto]).
  destruct (brand_options_spec_facts loaded Hman) as [opts' [Ho [_ [Hmem _]]]].
  rewrite Hopts in Ho. inversion Ho; subst opts'. clear Ho.
  apply Hmem in Hin. destruct Hin as [r [Hr Hrm]].
  assert (Hrmod : model r <> None).
  { rewrite Forall_forall in Hfilled. apply (Hfilled r Hr). }
  assert (Hrb : In r (brand_rows loaded brand)).
  { apply brand_rows_In. auto. }
  assert (Hno : (lower "" =? "") = true)
    by (rewrite lower_empty; reflexivity).
  pose proof (filtered_rows_no_text loaded brand "" Hno) as Hsame.
  assert (Hfne : filtered_rows loaded brand "" <> []).
  { rewrite Hsame. intros Hnil. rewrite Hnil in Hrb. exact Hrb. }
  exists (grouped (filtered_rows loaded brand "")).
  split; [| split].
  - apply (proj1 (proj2 (proj2 (proj2
             (models_by_company_outcome_facts loaded brand ""))))).
    rewrite Hsub', (empty_false loaded "manufacturer" r Hman Hr).
    repeat split; auto. left. apply lower_empty.
  - apply grouped_nonempty; [apply filtered_rows_filled | exact Hfne].
  - intros card Hcard.
    assert (Hk : In (row_model card)
                    (map fst (groupby_model (filtered_rows loaded brand "")))).
    { rewrite <- grouped_models. now apply in_map. }
    apply groupby_model_key_In in Hk. destruct Hk as [r' [Hr' Hm']].
    rewrite Hsame in Hr'. apply brand_rows_In in Hr'.
    exists r'. tauto.
Qed.

Lemma models_by_company_offered_brand_witness :
  exists cards,
    models_by_company (fst (load_data (Ok Sample.vehicles))) "bmw" ""
    = Ok (Rendered cards)
    /\ cards <> []
    /\ forall card, In card cards ->
          exists r, In r (rows (fst (load_data (Ok Sample.vehicles))))
                    /\ manufacturer r = Some "bmw"
                    /\ model r = Some (row_model card).
Proof.
  apply (models_by_company_offered_brand Sample.vehicles "bmw" ["bmw"; "ford"]).
  - reflexivity.
  - reflexivity.
  - reflexivity.
  - simpl. left. reflexivity.
Defined.
(** ** Most Listed Vehicle Brands: what the pie adds up to *)

Lemma list_sum_perm (l l' : list nat) :
  Permutation l l' -> list_sum l = list_sum l'.
Proof.
  induction 1; simpl; lia.
Qed.

Lemma count_cons (x k : string) (l : list string) :
  count (x :: l) k = ((if string_dec x k then 1 else 0) + count l k)%nat.
Proof.
  unfold count. simpl. now destruct (string_dec x k).
Qed.

Lemma indicator_sum (x : string) (ks : list string) :
  NoDup ks -> In x ks ->
  list_sum (map (fun k => if string_dec x k then 1 else 0)%nat ks) = 1%nat.
Proof.
  induction 1 as [| k ks Hnotin Hnd IH]; [intros [] |].
  intros [-> | Hin]; simpl.
  - destruct (string_dec x x); [| congruence].
    assert (Hz : list_sum (map (fun k => if string_dec x k then 1 else 0)%nat ks) = 0%nat).
    { clear IH Hnd. induction ks as [| k ks IHk]; [reflexivity |]. simpl.
      destruct (string_dec x k) as [-> | _].
      - exfalso. apply Hnotin. now left.
      - apply IHk. intros H. apply Hnotin. now right. }
    rewrite Hz. reflexivity.
  - destruct (string_dec x k) as [-> | _]; [contradiction |].
    simpl. now apply IH.
Qed.

Lemma sum_counts (ks l : list string) :
  NoDup ks -> incl l ks ->
  list_sum (map (count l) ks) = List.length l.
Proof.
  intros Hnd. induction l as [| x l IH]; intros Hincl.
  - clear Hnd Hincl. induction ks as [| k ks IHk]; [reflexivity | exact IHk].
  - assert (Hsplit : list_sum (map (count (x :: l)) ks)
                     = (list_sum (map (fun k => if string_dec x k then 1 else 0)%nat ks)
                        + list_sum (map (count l) ks))%nat).
    { clear. induction ks as [| k ks IHk]; [reflexivity |].
      cbn [map list_sum fold_right]. fold (list_sum (map (count (x :: l)) ks)).
      fold (list_sum (map (fun k0 => if string_dec x k0 then 1 else 0)%nat ks)).
      fold (list_sum (map (count l) ks)).
      rewrite IHk, count_cons. lia. }
    rewrite Hsplit, (indicator_sum x ks Hnd), IH.
    + reflexivity.
    + intros y Hy. apply Hincl. now right.
    + apply Hincl. now left.
Qed.

Lemma counts_sum (l : list string) :
  list_sum (map snd (counts l)) = List.length l.
Proof.
  unfold counts. rewrite map_map. simpl.
  apply sum_counts; [apply unique_NoDup |].
  intros x Hx. now apply unique_In.
Qed.

(** The counts plotted never add up to more than the number of listings that
    name a manufacturer, and they add up to exactly that number when at most
    ten manufacturers occur: only then does the pie show every listing. *)
Theorem topManufacturers_totals (df : DataFrame) :
  has_column df "manufacturer" = true ->
  exists top,
    topManufacturers df = Ok top
    /\ (list_sum (map snd top)
        <= List.length (dropna (map manufacturer (rows df))))%nat
    /\ ((nunique (map manufacturer (rows df)) <= 10)%nat ->
        list_sum (map snd top)
        = List.length (dropna (map manufacturer (rows df)))).
Proof.
  intros Hc. rewrite (topManufacturers_value_counts df Hc).
  set (s := map manufacturer (rows df)).
  exists (firstn 10 (value_counts s)). split; [reflexivity |].
  assert (Hall : list_sum (map snd (value_counts s)) = List.length (dropna s)).
  { rewrite <- counts_sum. apply list_sum_perm, Permutation_map, value_counts_perm. }
  split.
  - rewrite <- Hall.
    pose proof (firstn_skipn 10 (value_counts s)) as Hcut.
    apply (f_equal (fun l => list_sum (map snd l))) in Hcut.
    rewrite map_app, list_sum_app in Hcut. lia.
  - intros Hfew. rewrite firstn_all2; [exact Hall |].
    unfold value_counts. rewrite sort_length. unfold counts.
    rewrite length_map. exact Hfew.
Qed.

Lemma topManufacturers_totals_witness :
  (exists top,
     topManufacturers Sample.brands = Ok top
     /\ (list_sum (map snd top)
         <= List.length (dropna (map manufacturer (rows Sample.brands))))%nat
     /\ ((nunique (map manufacturer (rows Sample.brands)) <= 10)%nat ->
         list_sum (map snd top)
         = List.length (dropna (map manufacturer (rows Sample.brands)))))
  /\ List.length (dropna (map manufacturer (rows Sample.brands))) = 13%nat.
Proof.
  split; [| reflexivity].
  apply (topManufacturers_totals Sample.brands). reflexivity.
Defined.

(** ** Transmission vs Type, Manufacturer vs Drive *)

(** After a sound file with at least one complete row is loaded, the
    "Manufacturer vs Drive" chart gets one pair per row kept, in row order,
    and no pair has an empty cell. *)
Theorem manufacturer_vs_drive_after_load (df : DataFrame) :
  issubset required df = true ->
  rows (fst (load_data (Ok df))) <> [] ->
  exists pairs,
    manufacturer_vs_drive (fst (load_data (Ok df))) = Ok (Rendered pairs)
    /\ pairs = map (fun r => (manufacturer r, drive r))
                   (rows (fst (load_data (Ok df))))
    /\ List.length pairs = len (fst (load_data (Ok df)))
    /\ Forall (fun p => fst p <> None /\ snd p <> None) pairs.
Proof.
  intros Hsub Hne.
  pose proof (load_data_filled (Ok df)) as Hfilled.
  destruct (load_data_success_facts df Hsub) as [_ [Hcols _]].
  set (loaded := fst (load_data (Ok df))) in *.
  assert (Hman : has_column loaded "manufacturer" = true).
  { unfold has_column. rewrite Hcols.
    apply (issubset_has_column required df); [assumption | simpl; tauto]. }
  assert (Hdrv : has_column loaded "drive" = true).
  { unfold has_column. rewrite Hcols.
    apply (issubset_has_column required df); [assumption | simpl; tauto]. }
  unfold manufacturer_vs_drive, plotly_column.
  rewrite (empty_rows loaded "manufacturer" Hman), Hman, Hdrv.
  destruct (rows loaded) as [| r l] eqn:Hr; [congruence |].
  rewrite <- Hr in *. cbn [negb bind]. rewrite combine_map.
  eexists. split; [reflexivity |]. split; [reflexivity |].
  split; [unfold len; apply length_map |].
  apply Forall_forall. intros p Hp. apply in_map_iff in Hp.
  destruct Hp as [r' [<- Hr']]. rewrite Forall_forall in Hfilled.
  specialize (Hfilled r' Hr'). unfold required_filled in Hfilled. simpl. tauto.
Qed.

Lemma manufacturer_vs_drive_after_load_witness :
  exists pairs,
    manufacturer_vs_drive (fst (load_data (Ok Sample.vehicles))) = Ok (Rendered pairs)
    /\ pairs = map (fun r => (manufacturer r, drive r))
                   (rows (fst (load_data (Ok Sample.vehicles))))
    /\ List.length pairs = len (fst (load_data (Ok Sample.vehicles)))
    /\ Forall (fun p => fst p <> None /\ snd p <> None) pairs.
Proof.
  apply (manufacturer_vs_drive_after_load Sample.vehicles).
  - reflexivity.
  - simpl. discriminate.
Defined.

(** [load_data] does not ask for the type and transmission columns, and the
    "Transmission vs Type" page only tests that the frame is not empty: a
    file without one of the two loads without any message, and the page then
    raises the [ValueError] of plotly. *)
Theorem transmission_vs_type_missing_column (df : DataFrame) :
  issubset required df = true ->
  rows (fst (load_data (Ok df))) <> [] ->
  has_column df "transmission" = false \/ has_column df "type" = false ->
  snd (load_data (Ok df)) = []
  /\ exists msg,
       transmission_vs_type (fst (load_data (Ok df))) = Raise (ValueError msg).
Proof.
  intros Hsub Hne Hmiss.
  destruct (load_data_success_facts df Hsub) as [Herr [Hcols _]].
  split; [exact Herr |].
  set (loaded := fst (load_data (Ok df))) in *.
  assert (Hman : has_column loaded "manufacturer" = true).
  { unfold has_column. rewrite Hcols.
    apply (issubset_has_column required df); [assumption | simpl; tauto]. }
  unfold transmission_vs_type, plotly_column.
  rewrite (empty_rows loaded "manufacturer" Hman).
  destruct (rows loaded) as [| r l] eqn:Hr; [congruence |].
  cbn [negb]. unfold has_column in *. rewrite Hcols.
  destruct (existsb (String.eqb "transmission") (columns df)); cbn [bind].
  - destruct Hmiss as [H | H]; [discriminate |]. rewrite H. cbn [bind]. eauto.
  - eauto.
Qed.

Lemma transmission_vs_type_missing_column_witness :
  snd (load_data (Ok Sample.vehicles_no_type)) = []
  /\ exists msg,
       transmission_vs_type (fst (load_data (Ok Sample.vehicles_no_type)))
       = Raise (ValueError msg).
Proof.
  apply (transmission_vs_type_missing_column Sample.vehicles_no_type).
  - reflexivity.
  - simpl. discriminate.
  - right. reflexivity.
Defined.


(** ** Brand-Specific Heatmap: which of its outcomes *)

Lemma brand_heatmap_eval {lib : Library} (df : DataFrame) (brand : string) :
  brand_heatmap df brand
  = if negb (empty df) && issubset ["manufacturer"; "lat"; "long"] df then
      match heat_rows df brand with
      | [] => Ok (Warning "No data available for this manufacturer.")
      | _ :: _ =>
          Ok (Rendered
                {| location := (mean (map lat (heat_rows df brand)),
                                mean (map long (heat_rows df brand)));
                   heat_data := map (fun row => (lat row, long row))
                                    (heat_rows df brand) |})
      end
    else
      Ok (Warning
            "Required columns ('manufacturer', 'lat', 'long') not found in dataset.").
Proof.
  unfold brand_heatmap.
  destruct (negb (empty df) && issubset ["manufacturer"; "lat"; "long"] df)
    eqn:Hg; [| reflexivity].
  apply andb_true_iff in Hg. destruct Hg as [_ Hsub].
  assert (Hman : has_column df "manufacturer" = true)
    by (apply (issubset_has_column ["manufacturer"; "lat"; "long"]);
        [assumption | simpl; tauto]).
  assert (Hlat : has_column df "lat" = true)
    by (apply (issubset_has_column ["manufacturer"; "lat"; "long"]);
        [assumption | simpl; tauto]).
  assert (Hlong : has_column df "long" = true)
    by (apply (issubset_has_column ["manufacturer"; "lat"; "long"]);
        [assumption | simpl; tauto]).
  unfold getitem at 1. rewrite Hman. cbn [bind]. rewrite map_map.
  set (brand_df := getitem_mask df _).
  assert (Hb : rows brand_df = heat_rows df brand).
  { unfold brand_df, heat_rows. simpl. apply select_rows_map. }
  assert (Hbman : has_column brand_df "manufacturer" = true) by exact Hman.
  assert (Hblat : has_column brand_df "lat" = true) by exact Hlat.
  assert (Hblong : has_column brand_df "long" = true) by exact Hlong.
  rewrite (empty_rows brand_df "manufacturer" Hbman).
  unfold getitem. rewrite Hblat, Hblong. cbn [bind]. rewrite Hb.
  destruct (heat_rows df brand); reflexivity.
Qed.

(** Up to the calls of folium the page raises nothing, and it ends in
    exactly one of three ways.  The missing-columns warning: the frame is
    empty or lacks the manufacturer, lat or long column.  The no-data
    warning: the frame has them and no listing of the chosen manufacturer.
    A map: the frame has them and a listing of the manufacturer; the map
    then has one point per listing of the manufacturer, in frame order, made
    of the latitude and the longitude of the listing. *)
Theorem brand_heatmap_outcome {lib : Library} (df : DataFrame)
    (brand : string) :
  (brand_heatmap df brand
   = Ok (Warning
           "Required columns ('manufacturer', 'lat', 'long') not found in dataset.")
   <-> negb (empty df) && issubset ["manufacturer"; "lat"; "long"] df = false)
  /\ (brand_heatmap df brand
      = Ok (Warning "No data available for this manufacturer.")
      <-> negb (empty df) && issubset ["manufacturer"; "lat"; "long"] df
          = true
          /\ heat_rows df brand = [])
  /\ ((exists h, brand_heatmap df brand = Ok (Rendered h))
      <-> negb (empty df) && issubset ["manufacturer"; "lat"; "long"] df
          = true
          /\ heat_rows df brand <> [])
  /\ (forall h, brand_heatmap df brand = Ok (Rendered h) ->
        heat_data h
        = map (fun row => (lat row, long row)) (heat_rows df brand))
  /\ forall e, brand_heatmap df brand <> Raise e.
Proof.
  rewrite brand_heatmap_eval.
  destruct (negb (empty df) && issubset ["manufacturer"; "lat"; "long"] df);
    [| outcome].
  destruct (heat_rows df brand) as [| r l] eqn:Hh; outcome.
Qed.

(** ** The script as a whole *)

(** Every label of the sidebar reaches its page, and only those labels do:
    a run leaves the screen blank exactly for a label that is not one of the
    six. *)
Theorem render_blank_iff {lib : Library} (page : string) (df : DataFrame)
    (brand text : string) :
  render page df brand text = Ok Blank <-> ~ In page pages.
Proof.
  unfold render, pages.
  repeat match goal with
         | |- context [if ?p =? ?lbl then _ else _] =>
             let H := fresh "H" in
             destruct (p =? lbl) eqn:H;
             [apply String.eqb_eq in H | apply String.eqb_neq in H]
         end;
    try (split;
         [ match goal with
           | |- bind ?c _ = _ -> _ => destruct c; cbn [bind]; discriminate
           end
         | intros Hn; exfalso; apply Hn; subst; simpl; tauto ]).
  split; [| reflexivity]. intros _ Hin. simpl in Hin.
  repeat destruct Hin as [Hin | Hin]; congruence.
Qed.

(** When the load surfaced an error, every page but Home shows a warning
    and raises nothing, whatever the widgets hold. *)
Theorem run_after_failed_load {lib : Library} (read_csv : result DataFrame)
    (page brand text : string) :
  snd (load_data read_csv) <> [] ->
  In page pages ->
  page <> "Home" ->
  exists screen,
    fst (run read_csv page brand text) = Ok screen /\ warns screen.
Proof.
  intros Herr Hin Hpage. unfold run. cbn [fst].
  assert (Hempty : fst (load_data read_csv) = DataFrame_empty).
  { destruct (load_data_cases read_csv) as [[df [_ [_ Hl]]] | [e Hl]];
      rewrite Hl in *; [exfalso; apply Herr; reflexivity | reflexivity]. }
  rewrite Hempty. unfold pages in Hin. simpl in Hin.
  destruct Hin as [<- | [<- | [<- | [<- | [<- | [<- | []]]]]]];
    try congruence; (eexists; split; [reflexivity | exact I]).
Qed.

Lemma run_after_failed_load_witness :
  (exists screen,
     fst (run (Ok Sample.vehicles_no_price) "Brand-Specific Heatmap" "ford" "")
     = Ok screen /\ warns screen)
  /\ run (Ok Sample.vehicles_no_price) "Brand-Specific Heatmap" "ford" ""
     = (Ok (HeatmapScreen
              (Warning
                 "Required columns ('manufacturer', 'lat', 'long') not found in dataset.")),
        ["Error loading data: ['price']"]).
Proof.
  split; [| reflexivity].
  apply (run_after_failed_load (Ok Sample.vehicles_no_price)
           "Brand-Specific Heatmap" "ford" "").
  - simpl. discriminate.
  - simpl. tauto.
  - discriminate.
Defined.
